(** * Brochure editor: snapping, element creation, colour schemes, export

    A shallow embedding of four front-end modules of the brochure editor
    and the properties established about them:

    - [SmartGuides]        frontend/smart_guides.js
    - [ElementsLibrary]    frontend/elements_library.js
    - [ColorSchemes]       frontend/color_schemes.js
    - [MultiFormatExport]  frontend/multi_format_export.js

    JavaScript numbers are modelled as exact rationals ([Q]), DOM nodes
    as records carrying the attributes the code reads, module-level
    variables as an explicit state record threaded through each call, and
    plain objects used as dictionaries as finite maps of their own
    properties. *)

From Stdlib Require Import ZArith QArith Qabs Qminmax Qround Lqa.
From Stdlib Require Import String Ascii List Bool Lia Sorted.
From stdpp Require Import base option list strings pretty gmap.
Import ListNotations.

Local Open Scope string_scope.
Local Open Scope list_scope.

(* ===================================================================== *)
(** * Shared JavaScript idioms *)
(* ===================================================================== *)

Module Js.

(** [a || b] on strings: the empty string is falsy. *)
Definition strOr (a : option string) (b : string) : string :=
  match a with
  | Some s => if String.eqb s "" then b else s
  | None => b
  end.

(** Truthiness of a possibly absent string. *)
Definition strTruthy (a : option string) : bool :=
  match a with
  | Some s => negb (String.eqb s "")
  | None => false
  end.

(** [a || b] on numbers: zero is falsy. *)
Definition numOr (a : option Q) (b : Q) : Q :=
  match a with
  | Some q => if Qeq_bool q 0 then b else q
  | None => b
  end.

(** [a || b] on objects: only an absent object is falsy. *)
Definition objOr {A} (a : option A) (b : A) : A :=
  match a with Some v => v | None => b end.

(** [Math.round]: nearest integer, halves rounded towards +infinity. *)
Definition round (q : Q) : Z := Qfloor (q + (1 # 2)).

(** [Math.abs(a - b) <= t]. *)
Definition within (a b t : Q) : bool := Qle_bool (Qabs (a - b)) t.

End Js.

(* ===================================================================== *)
(** * frontend/smart_guides.js *)
(* ===================================================================== *)

Module SmartGuides.

Local Open Scope Q_scope.

(** ** DOM as the module reads it *)

(** [getBoundingClientRect()]: viewport coordinates. *)
Record DOMRect := mkRect {
  rleft : Q; rtop : Q; rwidth : Q; rheight : Q
}.

(** A DOM element: identity, class list, bounding box, and whether
    [offsetParent] is non-null. *)
Record Element := mkElement {
  nodeId : nat;
  classList : list string;
  boundingRect : DOMRect;
  hasOffsetParent : bool
}.

(** The canvas element and its descendants in document order. *)
Record Canvas := mkCanvas {
  canvasRect : DOMRect;
  descendants : list Element
}.

(** ** Configuration and module state *)

Record Config := mkConfig {
  snapThreshold : Q;
  guideColor : string;
  guideWidth : Q;
  showDistances : bool;
  snapToGrid : bool;
  gridSize : Q;
  snapToElements : bool;
  snapToCenter : bool;
  snapToEdges : bool
}.

Definition CONFIG0 : Config :=
  {| snapThreshold := 8; guideColor := "#FF00FF"; guideWidth := 1;
     showDistances := true; snapToGrid := false; gridSize := 10;
     snapToElements := true; snapToCenter := true; snapToEdges := true |}.

Inductive GuideType := vertical | horizontal.

(** A guide descriptor [{type, x|y, from, to, isCenter?}]; [gpos] is
    the [x] of a vertical guide and the [y] of a horizontal one. *)
Record Guide := mkGuide {
  gtype : GuideType;
  gpos : Q;
  gfrom : Q;
  gto : Q;
  isCenter : bool
}.

(** The module's variables: [CONFIG], [guides], [activeElement]
    (a node reference), [canvas], [guidesContainer] (its rendered
    children, when created) and [isEnabled]. *)
Record State := mkState {
  CONFIG : Config;
  guides : list Guide;
  activeElement : option nat;
  canvas : option Canvas;
  guidesContainer : option (list Guide);
  isEnabled : bool
}.

Definition initial : State :=
  {| CONFIG := CONFIG0; guides := []; activeElement := None;
     canvas := None; guidesContainer := None; isEnabled := true |}.

Definition setActive (st : State) (a : option nat) : State :=
  {| CONFIG := CONFIG st; guides := guides st; activeElement := a;
     canvas := canvas st; guidesContainer := guidesContainer st;
     isEnabled := isEnabled st |}.

(** [init(canvasElement)]; [existing] is the guides container found in
    the document, if any: it is reused, otherwise an empty one is
    created. *)
Definition init (st : State) (c : Canvas) (existing : option (list Guide))
    : State :=
  {| CONFIG := CONFIG st; guides := guides st;
     activeElement := activeElement st; canvas := Some c;
     guidesContainer := Some (Js.objOr existing []);
     isEnabled := isEnabled st |}.

Definition clearGuides (st : State) : State :=
  {| CONFIG := CONFIG st; guides := guides st; activeElement := None;
     canvas := canvas st;
     guidesContainer := option_map (fun _ => []) (guidesContainer st);
     isEnabled := isEnabled st |}.

Definition setEnabled (st : State) (enabled : bool) : State :=
  let st1 :=
    {| CONFIG := CONFIG st; guides := guides st;
       activeElement := activeElement st; canvas := canvas st;
       guidesContainer := guidesContainer st; isEnabled := enabled |} in
  if enabled then st1 else clearGuides st1.

Definition setConfig (st : State) (f : Config -> Config) : State :=
  {| CONFIG := f (CONFIG st); guides := guides st;
     activeElement := activeElement st; canvas := canvas st;
     guidesContainer := guidesContainer st; isEnabled := isEnabled st |}.

(** ** Snap points *)

Inductive TargetType := canvasTarget | elementTarget.

(** The object returned by [getElementSnapPoints] and
    [getCanvasSnapPoints]. *)
Record SnapPoints := mkPoints {
  left : Q; top : Q; right : Q; bottom : Q;
  centerX : Q; centerY : Q;
  width : Q; height : Q
}.

(** [{ ...points, type, element }] *)
Record SnapTarget := mkTarget {
  points : SnapPoints;
  ttype : TargetType;
  telement : option nat
}.

Definition snappableSelector : list string :=
  ["design-element"; "brochure-element"; "template-element"]%string.

(** [el.matches('.design-element, .brochure-element, .template-element')] *)
Definition matchesSelector (el : Element) : bool :=
  existsb (fun c => existsb (String.eqb c) (classList el)) snappableSelector.

(** [el === activeElement] *)
Definition isActive (st : State) (el : Element) : bool :=
  match activeElement st with
  | Some a => Nat.eqb (nodeId el) a
  | None => false
  end.

Definition getSnappableElements (st : State) : list Element :=
  match canvas st with
  | None => []
  | Some c =>
      List.filter (fun el => negb (isActive st el) && hasOffsetParent el)
        (List.filter matchesSelector (descendants c))
  end.

Definition getElementSnapPoints (c : Canvas) (el : Element) : SnapPoints :=
  let rect := boundingRect el in
  let cr := canvasRect c in
  let l := rleft rect - rleft cr in
  let t := rtop rect - rtop cr in
  {| left := l; top := t;
     right := l + rwidth rect; bottom := t + rheight rect;
     centerX := l + rwidth rect / 2; centerY := t + rheight rect / 2;
     width := rwidth rect; height := rheight rect |}.

Definition getCanvasSnapPoints (c : Canvas) : SnapPoints :=
  let rect := canvasRect c in
  {| left := 0; top := 0;
     right := rwidth rect; bottom := rheight rect;
     centerX := rwidth rect / 2; centerY := rheight rect / 2;
     width := rwidth rect; height := rheight rect |}.

Definition elementAsTarget (c : Canvas) (el : Element) : SnapTarget :=
  {| points := getElementSnapPoints c el; ttype := elementTarget;
     telement := Some (nodeId el) |}.

Definition canvasAsTarget (c : Canvas) : SnapTarget :=
  {| points := getCanvasSnapPoints c; ttype := canvasTarget;
     telement := None |}.

(** The [snapTargets] array built at the start of [calculateSnap]
    (once [activeElement] has been assigned). *)
Definition snapTargets (st : State) (c : Canvas) : list SnapTarget :=
  canvasAsTarget c ::
  (if snapToElements (CONFIG st)
   then List.map (elementAsTarget c) (getSnappableElements st)
   else []).

(** ** calculateSnap *)

(** What [calculateSnap] returns.  The early return carries no
    [snappedX]/[snappedY] properties. *)
Record Result := mkResult {
  x : Q; y : Q;
  rguides : list Guide;
  snappedX : option bool;
  snappedY : option bool
}.

(** The variables one axis loop assigns: the snapped coordinate, the
    shared [activeGuides] array and the [xSnapped]/[ySnapped] flag. *)
Record Loop := mkLoop {
  coord : Q;
  activeGuides : list Guide;
  snapped : bool
}.

(** The loop variables before a pass: nothing snapped yet. *)
Definition start (c : Q) (gs : list Guide) : Loop :=
  {| coord := c; activeGuides := gs; snapped := false |}.

Definition hit (acc : Loop) (c : Q) (g : Guide) : Loop :=
  {| coord := c; activeGuides := activeGuides acc ++ [g]; snapped := true |}.

Section Axes.

Variable cfg : Config.
Variable canvasPoints : SnapPoints.
Variables elementWidth elementHeight newX newY : Q.

Definition elementLeft : Q := newX.
Definition elementTop : Q := newY.
Definition elementRight : Q := newX + elementWidth.
Definition elementBottom : Q := newY + elementHeight.
Definition elementCenterX : Q := newX + elementWidth / 2.
Definition elementCenterY : Q := newY + elementHeight / 2.

Definition vguide (gx : Q) (target : SnapPoints) : Guide :=
  {| gtype := vertical; gpos := gx;
     gfrom := Qmin elementTop (top target);
     gto := Qmax elementBottom (bottom target);
     isCenter := false |}.

(** Body of the X loop for one target. *)
Definition xBody (acc : Loop) (target : SnapPoints) : Loop :=
  let t := snapThreshold cfg in
  if Js.within elementLeft (left target) t then
    hit acc (left target) (vguide (left target) target)
  else if Js.within elementRight (right target) t then
    hit acc (right target - elementWidth) (vguide (right target) target)
  else if Js.within elementLeft (right target) t then
    hit acc (right target) (vguide (right target) target)
  else if Js.within elementRight (left target) t then
    hit acc (left target - elementWidth) (vguide (left target) target)
  else if snapToCenter cfg
          && Js.within elementCenterX (centerX target) t then
    hit acc (centerX target - elementWidth / 2)
      {| gtype := vertical; gpos := centerX target;
         gfrom := 0; gto := height canvasPoints; isCenter := true |}
  else acc.

(** [for (const target of snapTargets) { if (xSnapped) break; ... }] *)
Fixpoint xLoop (targets : list SnapTarget) (acc : Loop) : Loop :=
  match targets with
  | [] => acc
  | target :: rest =>
      if snapped acc then acc
      else xLoop rest (xBody acc (points target))
  end.

(** [snappedX !== newX ? elementTop : newY] *)
Definition adjustedElementTop (snappedX : Q) : Q :=
  if negb (Qeq_bool snappedX newX) then elementTop else newY.

Definition hguide (snappedX gy : Q) (target : SnapPoints) : Guide :=
  {| gtype := horizontal; gpos := gy;
     gfrom := Qmin snappedX (left target);
     gto := Qmax (snappedX + elementWidth) (right target);
     isCenter := false |}.

(** Body of the Y loop for one target; [snappedX] is the value the
    X loop left behind. *)
Definition yBody (snappedX : Q) (acc : Loop) (target : SnapPoints) : Loop :=
  let t := snapThreshold cfg in
  let adjTop := adjustedElementTop snappedX in
  let adjBottom := adjTop + elementHeight in
  let adjCenterY := adjTop + elementHeight / 2 in
  if Js.within adjTop (top target) t then
    hit acc (top target) (hguide snappedX (top target) target)
  else if Js.within adjBottom (bottom target) t then
    hit acc (bottom target - elementHeight)
      (hguide snappedX (bottom target) target)
  else if Js.within adjTop (bottom target) t then
    hit acc (bottom target) (hguide snappedX (bottom target) target)
  else if Js.within adjBottom (top target) t then
    hit acc (top target - elementHeight)
      (hguide snappedX (top target) target)
  else if snapToCenter cfg
          && Js.within adjCenterY (centerY target) t then
    hit acc (centerY target - elementHeight / 2)
      {| gtype := horizontal; gpos := centerY target;
         gfrom := 0; gto := width canvasPoints; isCenter := true |}
  else acc.

Fixpoint yLoop (snappedX : Q) (targets : list SnapTarget) (acc : Loop)
    : Loop :=
  match targets with
  | [] => acc
  | target :: rest =>
      if snapped acc then acc
      else yLoop snappedX rest (yBody snappedX acc (points target))
  end.

(** [Math.round(v / CONFIG.gridSize) * CONFIG.gridSize] *)
Definition gridRound (v : Q) : Q :=
  inject_Z (Js.round (v / gridSize cfg)) * gridSize cfg.

(** Everything after the [snapTargets] array has been built. *)
Definition snapAgainst (targets : list SnapTarget) : Result :=
  let xl := xLoop targets (start newX []) in
  let yl := yLoop (coord xl) targets (start newY (activeGuides xl)) in
  let sx := if snapToGrid cfg && negb (snapped xl)
            then gridRound newX else coord xl in
  let sy := if snapToGrid cfg && negb (snapped yl)
            then gridRound newY else coord yl in
  {| x := sx; y := sy; rguides := activeGuides yl;
     snappedX := Some (snapped xl); snappedY := Some (snapped yl) |}.

End Axes.

(** [calculateSnap(element, newX, newY)], returning the result object
    and the module state it leaves behind. *)
Definition calculateSnap (st : State) (element : Element) (newX newY : Q)
    : Result * State :=
  match isEnabled st, canvas st with
  | true, Some c =>
      let st' := setActive st (Some (nodeId element)) in
      let elementRect := boundingRect element in
      let canvasPoints := getCanvasSnapPoints c in
      (snapAgainst (CONFIG st') canvasPoints
         (rwidth elementRect) (rheight elementRect) newX newY
         (snapTargets st' c),
       st')
  | _, _ =>
      ({| x := newX; y := newY; rguides := [];
          snappedX := None; snappedY := None |}, st)
  end.

(** ** The snapping rule as the design document words it

    One axis at a time, the moving box and a target are seen as
    intervals with a near edge ([lo]: left or top), a far edge ([hi]:
    right or bottom) and a centre.  The candidate alignments are tried
    in a fixed precedence; the first one within the threshold wins. *)

Record Span := mkSpan { lo : Q; hi : Q; mid : Q }.

Inductive Alignment :=
| NearNear       (* left-left,  top-top       *)
| FarFar         (* right-right, bottom-bottom *)
| NearFar        (* left-right, top-bottom    *)
| FarNear        (* right-left, bottom-top    *)
| CenterCenter.

Definition precedence : list Alignment :=
  [NearNear; FarFar; NearFar; FarNear; CenterCenter].

Definition movingEdge (a : Alignment) (e : Span) : Q :=
  match a with
  | NearNear | NearFar => lo e
  | FarFar | FarNear => hi e
  | CenterCenter => mid e
  end.

Definition targetEdge (a : Alignment) (t : Span) : Q :=
  match a with
  | NearNear | FarNear => lo t
  | FarFar | NearFar => hi t
  | CenterCenter => mid t
  end.

(** New near-edge coordinate of a moving box of extent [size]. *)
Definition correction (a : Alignment) (size : Q) (t : Span) : Q :=
  match a with
  | NearNear => lo t
  | FarFar => hi t - size
  | NearFar => hi t
  | FarNear => lo t - size
  | CenterCenter => mid t - size / 2
  end.

Definition spanAt (c size : Q) : Span :=
  {| lo := c; hi := c + size; mid := c + size / 2 |}.

Definition spanX (t : SnapPoints) : Span :=
  {| lo := left t; hi := right t; mid := centerX t |}.

Definition spanY (t : SnapPoints) : Span :=
  {| lo := top t; hi := bottom t; mid := centerY t |}.

(** Centre alignment is tried only under [CONFIG.snapToCenter]. *)
Definition allowed (cfg : Config) (a : Alignment) : bool :=
  match a with CenterCenter => snapToCenter cfg | _ => true end.

Definition aligns (cfg : Config) (e : Span) (t : Span) (a : Alignment)
    : bool :=
  allowed cfg a && Js.within (movingEdge a e) (targetEdge a t)
                     (snapThreshold cfg).

Definition firstAlignment (cfg : Config) (e t : Span)
    : option (nat * Alignment) :=
  list_find (fun a => Is_true (aligns cfg e t a)) precedence.

(** First target, in array order, that offers any alignment. *)
Definition firstTarget (cfg : Config) (e : Span)
    (proj : SnapPoints -> Span) (targets : list SnapTarget)
    : option (nat * SnapTarget) :=
  list_find (fun t => is_Some (firstAlignment cfg e (proj (points t))))
    targets.

(** Extent of the guide along the other axis: the union of the two
    boxes for an edge alignment, the whole canvas for a centre one. *)
Definition guideExtent (a : Alignment) (other canvasSide : Q)
    (otherSize : Q) (otherSpan : Span) : Q * Q :=
  match a with
  | CenterCenter => (0, canvasSide)
  | _ => (Qmin other (lo otherSpan), Qmax (other + otherSize) (hi otherSpan))
  end.

Definition guideFor (ty : GuideType) (a : Alignment) (t : Span)
    (extent : Q * Q) : Guide :=
  {| gtype := ty; gpos := targetEdge a t;
     gfrom := fst extent; gto := snd extent;
     isCenter := match a with CenterCenter => true | _ => false end |}.

(** The guide a matched alignment produces on each axis: a vertical
    line for X (extent taken on the Y axis at the candidate [newY]), a
    horizontal line for Y (extent taken on the X axis at the X-adjusted
    left edge [sx]). *)
Definition xGuide (cp : SnapPoints) (h newY : Q) (a : Alignment)
    (t : SnapPoints) : Guide :=
  guideFor vertical a (spanX t) (guideExtent a newY (height cp) h (spanY t)).

Definition yGuide (cp : SnapPoints) (w sx : Q) (a : Alignment)
    (t : SnapPoints) : Guide :=
  guideFor horizontal a (spanY t) (guideExtent a sx (width cp) w (spanX t)).

(** The decision for one axis: the first target that offers an
    alignment, with its first alignment. *)
Definition axisSnap (cfg : Config) (e : Span) (proj : SnapPoints -> Span)
    (targets : list SnapTarget) : option (nat * SnapTarget * Alignment) :=
  match firstTarget cfg e proj targets with
  | Some (i, t) =>
      match firstAlignment cfg e (proj (points t)) with
      | Some (_, a) => Some (i, t, a)
      | None => None
      end
  | None => None
  end.



Definition isVertical (g : Guide) : bool :=
  match gtype g with vertical => true | horizontal => false end.

Definition isHorizontal (g : Guide) : bool :=
  match gtype g with horizontal => true | vertical => false end.

(** What the Y pass decides and what the X pass decides. *)
Definition yDecision (r : Result) : Q * option bool * list Q :=
  (y r, snappedY r, List.map gpos (List.filter isHorizontal (rguides r))).

Definition xDecision (r : Result) : Q * option bool * list Q :=
  (x r, snappedX r, List.map gpos (List.filter isVertical (rguides r))).


Definition withElements (b : bool) (cfg : Config) : Config :=
  {| snapThreshold := snapThreshold cfg; guideColor := guideColor cfg;
     guideWidth := guideWidth cfg; showDistances := showDistances cfg;
     snapToGrid := snapToGrid cfg; gridSize := gridSize cfg;
     snapToElements := b;
     snapToCenter := snapToCenter cfg; snapToEdges := snapToEdges cfg |}.

(** ** Sample scene: an 800 x 600 canvas holding the dragged element
    and one sibling *)

Definition dragged : Element :=
  {| nodeId := 1; classList := ["design-element"]%string;
     boundingRect := mkRect 10 10 40 40; hasOffsetParent := true |}.

Definition sibling : Element :=
  {| nodeId := 2; classList := ["design-element"]%string;
     boundingRect := mkRect 300 200 100 100; hasOffsetParent := true |}.

Definition scene : Canvas :=
  {| canvasRect := mkRect 0 0 800 600; descendants := [dragged; sibling] |}.

Definition ready : State := init initial scene None.

End SmartGuides.


(* ===================================================================== *)
(** * The editor globals the element and colour modules touch *)
(* ===================================================================== *)

Module Editor.

Local Open Scope Q_scope.

(** ** Design elements *)

Record Point := mkPoint { px : Q; py : Q }.
Record Size := mkSize { swidth : Q; sheight : Q }.

(** The type-specific part of a design element; its constructor is the
    element's [type] field. *)
Inductive Payload :=
| ShapeData (shapeType fill stroke : string) (strokeWidth borderRadius : Q)
| IconData (iconType fill : string) (viewBox svgPath : option string)
| QRCodeData (url foreground background : string).

Record DesignElement := mkDesignElement {
  id : string;
  position : Point;
  size : Size;
  rotation : Q;
  zIndex : Q;
  locked : bool;
  visible : bool;
  opacity : Q;
  payload : Payload
}.

Definition elementType (e : DesignElement) : string :=
  match payload e with
  | ShapeData _ _ _ _ _ => "shape"
  | IconData _ _ _ _ => "icon"
  | QRCodeData _ _ _ => "qrcode"
  end.

(** ** The DOM the two modules read and write *)

(** A node below an [svg], with its [fill] and [stroke] attributes. *)
Record SvgNode := mkSvgNode {
  fillAttr : option string;
  strokeAttr : option string
}.

(** A [.draggable-element]: its [data-element-type], the nodes of its
    [svg], its inline background colour (empty when unset) and its
    bounding box top and bottom. *)
Record Draggable := mkDraggable {
  dataElementType : string;
  svgNodes : list SvgNode;
  backgroundColor : string;
  rectTop : Q;
  rectBottom : Q
}.

(** A text node matched by
    [.text-element, .editable-text, [contenteditable="true"]]. *)
Record TextEl := mkTextEl {
  fontSize : Z;
  headingClass : bool;
  tagName : string;
  color : string
}.

(** A [.brochure-page]. *)
Record PageDom := mkPageDom {
  dataPageId : string;
  pageBackground : string;
  pageTop : Q;
  pageHeight : Q;
  offsetWidth : Q;
  offsetHeight : Q;
  draggables : list Draggable;
  texts : list TextEl;
  badges : list string     (* background of .badge, .price-badge, ... *)
}.

(** The document: the pages in order, the colour panel's inputs by
    element id, and the colour-scheme grid (absent, or rendered with
    some scheme marked active). *)
Record Dom := mkDom {
  pages : list PageDom;
  inputs : gmap string string;
  colorSchemesGrid : option (option string)
}.

(** [document.querySelector('.brochure-page[data-page-id="..."]')] *)
Definition queryPage (d : Dom) (pageId : string) : option PageDom :=
  List.find (fun p => String.eqb (dataPageId p) pageId) (pages d).

(** ** EditorState *)

Record Snapshot := mkSnapshot {
  snapPages : list PageDom;
  snapSessionPages : list string;
  snapCurrentPage : option string;
  snapPageDescriptions : gmap string string;
  snapElements : gmap string (list DesignElement);
  snapLayerOrder : gmap string (list string)
}.

Record HistoryEntry := mkHistoryEntry {
  action : string;
  state : Snapshot;
  timestamp : Z
}.

Record Property := mkProperty {
  propertyUrl : option string;
  propertyId : option string
}.

Record EditorState := mkEditorState {
  sessionProperty : option Property;   (* sessionData?.property *)
  sessionPages : list string;          (* sessionData?.pages *)
  currentPage : option string;
  isDirty : bool;
  pageDescriptions : gmap string string;
  history : list HistoryEntry;
  historyIndex : Z;
  maxHistorySize : Z;
  isUndoRedo : bool;
  elements : gmap string (list DesignElement);
  layerOrder : gmap string (list string);
  selectedElements : list string
}.

Definition initialState : EditorState :=
  {| sessionProperty := None; sessionPages := []; currentPage := None;
     isDirty := false; pageDescriptions := ∅;
     history := []; historyIndex := (-1)%Z; maxHistorySize := 50%Z;
     isUndoRedo := false; elements := ∅; layerOrder := ∅;
     selectedElements := [] |}.

(** ** Observable effects *)

Inductive Event :=
| Toast (message type : string)      (* the editor's toast, shown 3 s *)
| ConsoleLog (message : string)
| ConsoleWarn (message detail : string)
| ConsoleError (message detail : string)
| SelectLater (delay : Z) (elementId : string).   (* setTimeout *)

(** What the surrounding page provides: whether the editor's global
    [showToast] and [saveToHistory] functions are defined, the icon
    table [window.ICONS_LIBRARY] and the clock. *)
Record IconDef := mkIconDef {
  iconViewBox : option string;
  iconPath : option string
}.

Record Env := mkEnv {
  hasShowToast : bool;
  hasSaveToHistory : bool;
  ICONS_LIBRARY : option (gmap string IconDef);
  dateNow : Z
}.

(** Everything a call can change. *)
Record World := mkWorld {
  editor : EditorState;
  dom : Dom;
  log : list Event
}.

Definition emit (w : World) (evs : list Event) : World :=
  {| editor := editor w; dom := dom w; log := log w ++ evs |}.

Definition setEditor (w : World) (e : EditorState) : World :=
  {| editor := e; dom := dom w; log := log w |}.

Definition setDom (w : World) (d : Dom) : World :=
  {| editor := editor w; dom := d; log := log w |}.

(** ** Undo history (the editor script) *)

Definition captureEditorState (w : World) : Snapshot :=
  {| snapPages := pages (dom w);
     snapSessionPages := sessionPages (editor w);
     snapCurrentPage := currentPage (editor w);
     snapPageDescriptions := pageDescriptions (editor w);
     snapElements := elements (editor w);
     snapLayerOrder := layerOrder (editor w) |}.

Definition withHistory (e : EditorState) (h : list HistoryEntry) (i : Z)
    : EditorState :=
  {| sessionProperty := sessionProperty e; sessionPages := sessionPages e;
     currentPage := currentPage e; isDirty := isDirty e;
     pageDescriptions := pageDescriptions e;
     history := h; historyIndex := i;
     maxHistorySize := maxHistorySize e; isUndoRedo := isUndoRedo e;
     elements := elements e; layerOrder := layerOrder e;
     selectedElements := selectedElements e |}.

Definition setDirty (e : EditorState) (b : bool) : EditorState :=
  {| sessionProperty := sessionProperty e; sessionPages := sessionPages e;
     currentPage := currentPage e; isDirty := b;
     pageDescriptions := pageDescriptions e;
     history := history e; historyIndex := historyIndex e;
     maxHistorySize := maxHistorySize e; isUndoRedo := isUndoRedo e;
     elements := elements e; layerOrder := layerOrder e;
     selectedElements := selectedElements e |}.

(** [saveToHistory(actionName)]; the refresh of the undo/redo buttons
    it ends with changes nothing modelled here. *)
Definition saveToHistory (env : Env) (actionName : string) (w : World)
    : World :=
  let e := editor w in
  if isUndoRedo e then w
  else
    let snapshot := captureEditorState w in
    let len := Z.of_nat (length (history e)) in
    let h1 := if (historyIndex e <? len - 1)%Z
              then firstn (Z.to_nat (historyIndex e + 1)) (history e)
              else history e in
    let h2 := h1 ++ [{| action := actionName; state := snapshot;
                        timestamp := dateNow env |}] in
    let e' := if (maxHistorySize e <? Z.of_nat (length h2))%Z
              then withHistory e (List.tl h2) (historyIndex e)
              else withHistory e h2 (historyIndex e + 1)%Z in
    emit (setEditor w e')
      [ConsoleLog ("History saved: " +:+ actionName)].

(** [if (typeof saveToHistory === 'function') saveToHistory(name)] *)
Definition saveToHistoryIfDefined (env : Env) (name : string) (w : World)
    : World :=
  if hasSaveToHistory env then saveToHistory env name w else w.

(** The editor's global [showToast(message, type)]. *)
Definition globalShowToast (message type : string) (w : World) : World :=
  emit w [Toast message type].

End Editor.

(* ===================================================================== *)
(** * frontend/elements_library.js *)
(* ===================================================================== *)

Module ElementsLibrary.

Import Editor.
Local Open Scope Q_scope.

(** The part of [ElementDrag] (element_drag.js, not among the sources)
    this module calls, taken as a parameter: an id generator over some
    supply [S], the next z-index of a page (a read of the editor
    state), and the insertion of an element into a page. *)
Class ElementDrag (S : Type) := {
  createElementId : S -> string * S;
  getNextZIndex : World -> string -> Q;
  addElementToPage : DesignElement -> string -> World -> World
}.

(** The [options] argument of the constructors. *)
Record Options := mkOptions {
  oPosition : option Point;
  oSize : option Size;
  oZIndex : option Q;
  oFill : option string;
  oStroke : option string;
  oStrokeWidth : option Q;
  oOpacity : option Q;
  oBorderRadius : option Q;
  oForeground : option string;
  oBackground : option string
}.

Definition noOptions : Options :=
  {| oPosition := None; oSize := None; oZIndex := None; oFill := None;
     oStroke := None; oStrokeWidth := None; oOpacity := None;
     oBorderRadius := None; oForeground := None; oBackground := None |}.

(** [{ position: { x, y }, zIndex }] *)
Definition placed (x y z : Q) : Options :=
  {| oPosition := Some (mkPoint x y); oSize := None; oZIndex := Some z;
     oFill := None; oStroke := None; oStrokeWidth := None;
     oOpacity := None; oBorderRadius := None; oForeground := None;
     oBackground := None |}.

Section WithElementDrag.

Context {S : Type} `{ElementDrag S}.

(** ** Element creation *)

Definition createShapeElement (shapeType : string) (options : Options)
    (s : S) : DesignElement * S :=
  let (newId, s') := createElementId s in
  ({| id := newId;
      position := Js.objOr (oPosition options) (mkPoint 100 100);
      size := Js.objOr (oSize options) (mkSize 100 100);
      rotation := 0;
      zIndex := Js.numOr (oZIndex options) 10;
      locked := false;
      visible := true;
      opacity := Js.numOr (oOpacity options) 1;
      payload :=
        ShapeData shapeType
          (Js.strOr (oFill options) "#C20430")
          (Js.strOr (oStroke options) "none")
          (Js.numOr (oStrokeWidth options) 0)
          (Js.numOr (oBorderRadius options) 0) |}, s').

(** Returns [None] for JavaScript's [null]; the events are what the
    call wrote to the console. *)
Definition createIconElement (env : Env) (iconType : string)
    (options : Options) (s : S)
    : option DesignElement * S * list Event :=
  let iconsLib := Js.objOr (ICONS_LIBRARY env) ∅ in
  match iconsLib !! iconType with
  | None => (None, s, [ConsoleWarn "Unknown icon type:" iconType])
  | Some iconDef =>
      let (newId, s') := createElementId s in
      (Some {| id := newId;
               position := Js.objOr (oPosition options) (mkPoint 100 100);
               size := Js.objOr (oSize options) (mkSize 48 48);
               rotation := 0;
               zIndex := Js.numOr (oZIndex options) 10;
               locked := false;
               visible := true;
               opacity := Js.numOr (oOpacity options) 1;
               payload :=
                 IconData iconType
                   (Js.strOr (oFill options) "#374151")
                   (iconViewBox iconDef) (iconPath iconDef) |},
       s', [])
  end.

Definition createQRCodeElement (url : option string) (options : Options)
    (s : S) : DesignElement * S :=
  let (newId, s') := createElementId s in
  ({| id := newId;
      position := Js.objOr (oPosition options) (mkPoint 100 100);
      size := Js.objOr (oSize options) (mkSize 100 100);
      rotation := 0;
      zIndex := Js.numOr (oZIndex options) 10;
      locked := false;
      visible := true;
      opacity := Js.numOr (oOpacity options) 1;
      payload :=
        QRCodeData (Js.strOr url "")
          (Js.strOr (oForeground options) "#000000")
          (Js.strOr (oBackground options) "#FFFFFF") |}, s').

(** ** Helpers *)

Definition getPropertyUrl (e : EditorState) : string :=
  match sessionProperty e with
  | Some p =>
      if Js.strTruthy (propertyUrl p) then Js.strOr (propertyUrl p) ""
      else if Js.strTruthy (propertyId p) then
        "https://doorstep.co.uk/property/" +:+ Js.strOr (propertyId p) ""
      else "https://doorstep.co.uk"
  | None => "https://doorstep.co.uk"
  end.

(** The module's own [showToast]: the editor's toast when
    [window.showToast] is a function, the console otherwise. *)
Definition showToast (env : Env) (message type : string) (w : World)
    : World :=
  if hasShowToast env then globalShowToast message type w
  else emit w [ConsoleLog ("[" +:+ type +:+ "] " +:+ message)].

(** ** Adding elements to a page *)

Definition addElementAtPosition (env : Env) (pageId : string)
    (elementType shapeType iconType : string) (x y : Q)
    (w : World) (s : S) : World * S :=
  let zIndex := getNextZIndex w pageId in
  let '(elementData, s', evs) :=
    if String.eqb elementType "shape" then
      let (d, s1) := createShapeElement shapeType (placed x y zIndex) s in
      (Some d, s1, [])
    else if String.eqb elementType "icon" then
      createIconElement env iconType (placed x y zIndex) s
    else if String.eqb elementType "qrcode" then
      let propertyUrl := getPropertyUrl (editor w) in
      let (d, s1) :=
        createQRCodeElement (Some propertyUrl) (placed x y zIndex) s in
      (Some d, s1, [])
    else (None, s, []) in
  let w0 := emit w evs in
  match elementData with
  | None => (w0, s')
  | Some d =>
      let w1 := saveToHistoryIfDefined env "add element" w0 in
      let w2 := addElementToPage d pageId w1 in
      let w3 := emit w2 [SelectLater 50 (id d)] in
      (showToast env ("Added " +:+ elementType) "success" w3, s')
  end.

Definition addElementToCurrentPage (env : Env)
    (elementType shapeType iconType : string) (w : World) (s : S)
    : World * S :=
  let pageId := currentPage (editor w) in
  if negb (Js.strTruthy pageId) then
    (showToast env "Please select a page first" "warning" w, s)
  else
    let pid := Js.strOr pageId "" in
    match queryPage (dom w) pid with
    | None => (w, s)
    | Some page =>
        let centerX := offsetWidth page / 2 - 50 in
        let centerY := offsetHeight page / 2 - 50 in
        addElementAtPosition env pid elementType shapeType iconType
          centerX centerY w s
    end.

Definition addQRCodeToCurrentPage (env : Env) (w : World) (s : S)
    : World * S :=
  addElementToCurrentPage env "qrcode" "" "" w s.

(** What every constructor guarantees about the element it returns
    from supply [s], leaving supply [s']: unlocked, visible, not
    rotated, and carrying the id that the one call of
    [createElementId] on [s] produced. *)
Definition freshlyCreated (s : S) (e : DesignElement) (s' : S) : Prop :=
  locked e = false /\ visible e = true /\ rotation e = 0 /\
  id e = fst (createElementId s) /\ s' = snd (createElementId s).

(** A call that left the editor state, the DOM and the id supply as
    they were and only wrote the events [evs]. *)
Definition onlyLogged (w : World) (s : S) (evs : list Event)
    (r : World * S) : Prop :=
  editor (fst r) = editor w /\ dom (fst r) = dom w /\ snd r = s /\
  log (fst r) = log w ++ evs.

End WithElementDrag.

(** An [ElementDrag] to run the examples with (element_drag.js is not
    among the sources, so the theorems below hold for any instance): ids
    come from a counter, the next z-index is one more than the number of
    elements on the page, and adding an element appends it to
    [EditorState.elements[pageId]] and marks the document dirty. *)
Definition counterId (n : nat) : string * nat :=
  ("element-" +:+ pretty n, Datatypes.S n).

Definition appendElement (d : DesignElement) (pageId : string) (w : World)
    : World :=
  let e := editor w in
  let onPage := default [] (elements e !! pageId) in
  let e' :=
    {| sessionProperty := sessionProperty e; sessionPages := sessionPages e;
       currentPage := currentPage e; isDirty := true;
       pageDescriptions := pageDescriptions e;
       history := history e; historyIndex := historyIndex e;
       maxHistorySize := maxHistorySize e; isUndoRedo := isUndoRedo e;
       elements := <[pageId := onPage ++ [d]]> (elements e);
       layerOrder := layerOrder e;
       selectedElements := selectedElements e |} in
  setEditor w e'.

#[export] Instance counterElementDrag : ElementDrag nat :=
  {| createElementId := counterId;
     getNextZIndex := fun w pageId =>
       inject_Z (Z.of_nat
         (length (default [] (elements (editor w) !! pageId))) + 1);
     addElementToPage := appendElement |}.

(** A sample page, world and environment. *)
Definition page1 : PageDom :=
  {| dataPageId := "p1"; pageBackground := "#ffffff";
     pageTop := 0; pageHeight := 794;
     offsetWidth := 1123; offsetHeight := 794;
     draggables := []; texts := []; badges := [] |}.

Definition world0 : World :=
  {| editor := initialState;
     dom := {| pages := [page1]; inputs := ∅; colorSchemesGrid := None |};
     log := [] |}.

(** The same world with page p1 selected. *)
Definition world1 : World :=
  setEditor world0
    {| sessionProperty := None; sessionPages := []; currentPage := Some "p1";
       isDirty := false; pageDescriptions := ∅;
       history := []; historyIndex := (-1)%Z; maxHistorySize := 50%Z;
       isUndoRedo := false; elements := ∅; layerOrder := ∅;
       selectedElements := [] |}.

Definition env0 : Env :=
  {| hasShowToast := true; hasSaveToHistory := true;
     ICONS_LIBRARY :=
       Some {[ "bed" := mkIconDef (Some "0 0 24 24") (Some "M2 4v16") ]};
     dateNow := 0 |}.

End ElementsLibrary.

(* ===================================================================== *)
(** * frontend/color_schemes.js *)
(* ===================================================================== *)

Module ColorSchemes.

Import Editor.
Local Open Scope Q_scope.

Record ColorScheme := mkScheme {
  name : string;
  primary : string;
  secondary : string;
  accent : string;
  background : string;
  text : string
}.

Definition COLOR_SCHEMES : gmap string ColorScheme :=
  list_to_map [
     ("classicNavy", mkScheme "Classic Navy" "#1a365d" "#2c5282" "#ed8936" "#ffffff" "#2d3748");
     ("corporateBlue", mkScheme "Corporate Blue" "#0066cc" "#004499" "#ff6600" "#f8fafc" "#1e293b");
     ("executiveGray", mkScheme "Executive Gray" "#374151" "#6b7280" "#f59e0b" "#ffffff" "#111827");
     ("professionalGreen", mkScheme "Professional Green" "#065f46" "#047857" "#fbbf24" "#f0fdf4" "#14532d");
     ("blackGold", mkScheme "Black & Gold" "#1a1a1a" "#333333" "#d4af37" "#0d0d0d" "#ffffff");
     ("platinumLux", mkScheme "Platinum Luxury" "#2d3748" "#4a5568" "#c9a961" "#f7fafc" "#1a202c");
     ("roseGoldElite", mkScheme "Rose Gold Elite" "#4a3728" "#6b4423" "#e8b4b8" "#fdf2f8" "#3d2914");
     ("sapphireRoyal", mkScheme "Sapphire Royal" "#1e3a5f" "#2c5282" "#c9a961" "#f0f9ff" "#0c4a6e");
     ("emeraldPrestige", mkScheme "Emerald Prestige" "#064e3b" "#047857" "#fcd34d" "#ecfdf5" "#022c22");
     ("modernMono", mkScheme "Modern Mono" "#000000" "#404040" "#666666" "#ffffff" "#000000");
     ("cleanSlate", mkScheme "Clean Slate" "#334155" "#64748b" "#0ea5e9" "#f8fafc" "#0f172a");
     ("urbanChic", mkScheme "Urban Chic" "#18181b" "#3f3f46" "#a855f7" "#fafafa" "#09090b");
     ("techModern", mkScheme "Tech Modern" "#0f172a" "#1e293b" "#22d3ee" "#f1f5f9" "#020617");
     ("sunsetCoral", mkScheme "Sunset Coral" "#dc2626" "#f97316" "#fbbf24" "#fff7ed" "#7c2d12");
     ("oceanBreeze", mkScheme "Ocean Breeze" "#0891b2" "#06b6d4" "#f97316" "#ecfeff" "#164e63");
     ("forestFresh", mkScheme "Forest Fresh" "#15803d" "#22c55e" "#facc15" "#f0fdf4" "#14532d");
     ("berryBliss", mkScheme "Berry Bliss" "#7c3aed" "#a855f7" "#f472b6" "#faf5ff" "#4c1d95");
     ("warmSand", mkScheme "Warm Sand" "#92400e" "#b45309" "#059669" "#fefce8" "#78350f");
     ("stoneNatural", mkScheme "Stone Natural" "#57534e" "#78716c" "#84cc16" "#fafaf9" "#292524");
     ("woodlandBrown", mkScheme "Woodland Brown" "#5c4033" "#8b6914" "#4ade80" "#fdf6e3" "#3d2914");
     ("terracotta", mkScheme "Terracotta" "#c2410c" "#ea580c" "#16a34a" "#fff7ed" "#7c2d12");
     ("britishCottage", mkScheme "British Cottage" "#5d6e5c" "#a8b5a0" "#d4a574" "#faf8f5" "#3d3d3d");
     ("cosyHearth", mkScheme "Cosy Hearth" "#8b4d3b" "#c9a88e" "#deb887" "#fff9f5" "#4a3728");
     ("sageAndStone", mkScheme "Sage & Stone" "#7d8471" "#b5baa8" "#c49a6c" "#f5f5f0" "#404040");
     ("dustyRose", mkScheme "Dusty Rose" "#b8848c" "#d4a5a5" "#8b7355" "#fdf6f6" "#5c4a4a");
     ("warmTaupe", mkScheme "Warm Taupe" "#8b7d72" "#a89f94" "#c17f59" "#faf7f4" "#4a4540");
     ("heritageGreen", mkScheme "Heritage Green" "#2d4a3e" "#5c7a6b" "#d4af37" "#f4f7f5" "#1a2e24");
     ("countryManor", mkScheme "Country Manor" "#4a5568" "#9ca3af" "#92400e" "#f8f6f3" "#2d3748");
     ("coastalCalm", mkScheme "Coastal Calm" "#4a6670" "#8fa3ad" "#d4a574" "#f5f8f9" "#2c3e43");
     ("savillsStyle", mkScheme "Savills" "#1a3c6e" "#c9a961" "#8b7355" "#f8f6f3" "#333333");
     ("knightFrankStyle", mkScheme "Knight Frank" "#003366" "#d4af37" "#4a4a4a" "#ffffff" "#1a1a1a");
     ("foxtonsStyle", mkScheme "Foxtons" "#00594c" "#8dc63f" "#ffffff" "#f5f5f5" "#333333");
     ("purpleBricksStyle", mkScheme "Purple Bricks" "#6b2d5b" "#f7941d" "#ffffff" "#ffffff" "#333333");
     ("rightmoveStyle", mkScheme "Rightmove" "#00deb6" "#2c2c2c" "#ff5a00" "#ffffff" "#2c2c2c");
     ("zooplaStyle", mkScheme "Zoopla" "#6d2077" "#e95420" "#8a3e91" "#ffffff" "#333333");
     ("hamptonsStyle", mkScheme "Hamptons" "#003057" "#c5a572" "#666666" "#f9f9f9" "#1a1a1a");
     ("dextersStyle", mkScheme "Dexters" "#000000" "#e31837" "#ffffff" "#f5f5f5" "#1a1a1a")
  ].

(** ** Recolouring the pages *)

(** [[fill]:not([fill="none"])], then the JavaScript test
    [currentFill && currentFill !== 'none' && currentFill !== 'currentColor']. *)
Definition recolorShapeAttr (a : option string) (c : string)
    : option string :=
  match a with
  | Some v =>
      if String.eqb v "none" then a
      else if negb (String.eqb v "") && negb (String.eqb v "none")
              && negb (String.eqb v "currentColor")
      then Some c else a
  | None => None
  end.

(** [[fill]:not([fill="none"])] alone, as the icon pass uses it. *)
Definition recolorIconAttr (a : option string) (c : string)
    : option string :=
  match a with
  | Some v => if String.eqb v "none" then a else Some c
  | None => None
  end.

Definition recolorSvg (scheme : ColorScheme) (ty : string) (n : SvgNode)
    : SvgNode :=
  if String.eqb ty "shape" then
    {| fillAttr := recolorShapeAttr (fillAttr n) (primary scheme);
       strokeAttr := recolorShapeAttr (strokeAttr n) (secondary scheme) |}
  else if String.eqb ty "icon" then
    {| fillAttr := recolorIconAttr (fillAttr n) (accent scheme);
       strokeAttr := recolorIconAttr (strokeAttr n) (accent scheme) |}
  else n.

Definition recolorBackground (scheme : ColorScheme) (page : PageDom)
    (d : Draggable) : string :=
  let bg := backgroundColor d in
  if negb (String.eqb bg "") && negb (String.eqb bg "transparent")
     && negb (String.eqb bg "rgba(0, 0, 0, 0)")
  then
    let isHeader :=
      negb (Qle_bool (pageHeight page * (2 # 10))
              (rectTop d - pageTop page)) in
    let isFooter :=
      negb (Qle_bool (rectBottom d - pageTop page)
              (pageHeight page * (8 # 10))) in
    if isHeader || isFooter then primary scheme else secondary scheme
  else bg.

Definition recolorDraggable (scheme : ColorScheme) (page : PageDom)
    (d : Draggable) : Draggable :=
  {| dataElementType := dataElementType d;
     svgNodes := List.map (recolorSvg scheme (dataElementType d))
                   (svgNodes d);
     backgroundColor := recolorBackground scheme page d;
     rectTop := rectTop d; rectBottom := rectBottom d |}.

Definition recolorText (scheme : ColorScheme) (t : TextEl) : TextEl :=
  {| fontSize := fontSize t; headingClass := headingClass t;
     tagName := tagName t;
     color :=
       if (24 <=? fontSize t)%Z || headingClass t
          || String.eqb (tagName t) "H1" || String.eqb (tagName t) "H2"
       then primary scheme else text scheme |}.

(** The body of [pages.forEach(page => ...)]. *)
Definition recolorPage (scheme : ColorScheme) (page : PageDom) : PageDom :=
  {| dataPageId := dataPageId page;
     pageBackground := background scheme;
     pageTop := pageTop page; pageHeight := pageHeight page;
     offsetWidth := offsetWidth page; offsetHeight := offsetHeight page;
     draggables := List.map (recolorDraggable scheme page)
                     (draggables page);
     texts := List.map (recolorText scheme) (texts page);
     badges := List.map (fun _ => accent scheme) (badges page) |}.

(** Applies [f] to the first element satisfying [p]: the one
    [querySelector] returns. *)
Fixpoint updateFirst {A} (p : A -> bool) (f : A -> A) (l : list A)
    : list A :=
  match l with
  | [] => []
  | a :: rest => if p a then f a :: rest else a :: updateFirst p f rest
  end.

Definition applyColorsToPages (scheme : ColorScheme)
    (currentPageOnly : bool) (w : World) : World :=
  let d := dom w in
  let pages' :=
    if currentPageOnly && Js.strTruthy (currentPage (editor w)) then
      updateFirst
        (fun p => String.eqb (dataPageId p)
                    (Js.strOr (currentPage (editor w)) ""))
        (recolorPage scheme) (pages d)
    else List.map (recolorPage scheme) (pages d) in
  setDom w {| pages := pages'; inputs := inputs d;
              colorSchemesGrid := colorSchemesGrid d |}.

(** ** The colour panel *)

Definition setInputPair (value colorId hexId : string)
    (m : gmap string string) : gmap string string :=
  match m !! colorId, m !! hexId with
  | Some _, Some _ =>
      if String.eqb value "" then m
      else <[hexId := value]> (<[colorId := value]> m)
  | _, _ => m
  end.

Definition updateCustomColorInputs (scheme : ColorScheme) (w : World)
    : World :=
  let d := dom w in
  let m1 := setInputPair (primary scheme)
              "schemePrimary" "schemePrimaryHex" (inputs d) in
  let m2 := setInputPair (secondary scheme)
              "schemeSecondary" "schemeSecondaryHex" m1 in
  let m3 := setInputPair (accent scheme)
              "schemeAccent" "schemeAccentHex" m2 in
  let m4 := setInputPair (background scheme)
              "schemeBackground" "schemeBackgroundHex" m3 in
  let m5 := setInputPair (text scheme)
              "schemeText" "schemeTextHex" m4 in
  setDom w {| pages := pages d; inputs := m5;
              colorSchemesGrid := colorSchemesGrid d |}.

(** [renderColorSchemesGrid()]: when the grid element exists it is
    redrawn with the current scheme marked active. *)
Definition renderColorSchemesGrid (currentScheme : option string)
    (w : World) : World :=
  let d := dom w in
  match colorSchemesGrid d with
  | None => w
  | Some _ =>
      setDom w {| pages := pages d; inputs := inputs d;
                  colorSchemesGrid := Some currentScheme |}
  end.

(** ** applyColorScheme *)

Definition quote : string := String (ascii_of_nat 34) EmptyString.

(** [applyColorScheme(schemeId, currentPageOnly)], threading the world
    and the module variable [currentScheme]. *)
Definition applyColorScheme (env : Env) (schemeId : string)
    (currentPageOnly : bool) (w : World) (currentScheme : option string)
    : World * option string :=
  match COLOR_SCHEMES !! schemeId with
  | None => (emit w [ConsoleError "Unknown color scheme:" schemeId],
             currentScheme)
  | Some scheme =>
      let currentScheme' := Some schemeId in
      let w1 := applyColorsToPages scheme currentPageOnly w in
      let w2 := updateCustomColorInputs scheme w1 in
      let w3 := renderColorSchemesGrid currentScheme' w2 in
      let w4 :=
        if hasShowToast env then
          globalShowToast
            ("Applied " +:+ quote +:+ name scheme +:+ quote
             +:+ " color scheme") "success" w3
        else w3 in
      let w5 := setEditor w4 (setDirty (editor w4) true) in
      (saveToHistoryIfDefined env "apply color scheme" w5, currentScheme')
  end.

End ColorSchemes.

(* ===================================================================== *)
(** * frontend/multi_format_export.js *)
(* ===================================================================== *)

Module MultiFormatExport.

Local Open Scope Q_scope.

(** ** Strings

    Strings are byte strings holding UTF-8.  [toLowerCase] and [trim]
    are modelled on the ASCII range. *)

Definition nl : string := String (ascii_of_nat 10) EmptyString.

Definition lowerChar (c : ascii) : ascii :=
  let n := nat_of_ascii c in
  if (65 <=? n)%nat && (n <=? 90)%nat then ascii_of_nat (n + 32) else c.

Fixpoint toLowerCase (s : string) : string :=
  match s with
  | EmptyString => EmptyString
  | String c rest => String (lowerChar c) (toLowerCase rest)
  end.

(** [hay.includes(needle)] *)
Definition includes (hay needle : string) : bool :=
  match String.index 0 needle hay with Some _ => true | None => false end.

Definition isSpace (c : ascii) : bool :=
  let n := nat_of_ascii c in
  ((9 <=? n)%nat && (n <=? 13)%nat) || (n =? 32)%nat.

Fixpoint trimStart (s : string) : string :=
  match s with
  | EmptyString => EmptyString
  | String c rest => if isSpace c then trimStart rest else s
  end.

Fixpoint trimEnd (s : string) : string :=
  match s with
  | EmptyString => EmptyString
  | String c rest =>
      match trimEnd rest with
      | EmptyString => if isSpace c then EmptyString
                       else String c EmptyString
      | kept => String c kept
      end
  end.

Definition trim (s : string) : string := trimEnd (trimStart s).

(** [s.split(/[•\-\n]/)]: the bullet U+2022 is the three bytes
    E2 80 A2; [cur] is the piece being read. *)
Fixpoint splitPoints (cur : string) (s : string) : list string :=
  match s with
  | EmptyString => [cur]
  | String c rest =>
      let n := nat_of_ascii c in
      if (n =? 45)%nat || (n =? 10)%nat then cur :: splitPoints "" rest
      else
        match rest with
        | String c2 (String c3 rest3) =>
            if (n =? 226)%nat && (nat_of_ascii c2 =? 128)%nat
               && (nat_of_ascii c3 =? 162)%nat
            then cur :: splitPoints "" rest3
            else splitPoints (cur +:+ String c EmptyString) rest
        | _ => splitPoints (cur +:+ String c EmptyString) rest
        end
  end.

(** [[...new Set(l)]]: insertion order, first occurrence kept;
    [seen] is the set built so far. *)
Fixpoint setOf (seen : list string) (l : list string) : list string :=
  match l with
  | [] => seen
  | v :: rest =>
      if existsb (String.eqb v) seen then setOf seen rest
      else setOf (seen ++ [v]) rest
  end.

(** ** Brochure data *)

Record Content := mkContent {
  intro : option string;
  contentHighlights : option (list string);   (* present and an array *)
  description : option string
}.

Definition noContent : Content :=
  {| intro := None; contentHighlights := None; description := None |}.

Record Block := mkBlock {
  blockType : option string;
  blockTitle : option string;
  blockContent : option string
}.

Record Page := mkPage {
  name : option string;
  content : option Content;
  contentBlocks : option (list Block)
}.

Record BrochureData := mkBrochureData {
  pages : option (list Page)
}.

(** ** extractContentSections *)

Record Sections := mkSections {
  opening : string;
  highlights : list string;
  situation : string;
  accommodation : string;
  outside : string;
  services : string;
  additional : list (string * string)    (* title, content *)
}.

Definition emptySections : Sections :=
  {| opening := ""; highlights := []; situation := "";
     accommodation := ""; outside := ""; services := "";
     additional := [] |}.

Definition setOpening (s : Sections) (v : string) : Sections :=
  {| opening := v; highlights := highlights s; situation := situation s;
     accommodation := accommodation s; outside := outside s;
     services := services s; additional := additional s |}.

Definition setHighlights (s : Sections) (v : list string) : Sections :=
  {| opening := opening s; highlights := v; situation := situation s;
     accommodation := accommodation s; outside := outside s;
     services := services s; additional := additional s |}.

Definition setSituation (s : Sections) (v : string) : Sections :=
  {| opening := opening s; highlights := highlights s; situation := v;
     accommodation := accommodation s; outside := outside s;
     services := services s; additional := additional s |}.

Definition setAccommodation (s : Sections) (v : string) : Sections :=
  {| opening := opening s; highlights := highlights s;
     situation := situation s; accommodation := v; outside := outside s;
     services := services s; additional := additional s |}.

Definition setOutside (s : Sections) (v : string) : Sections :=
  {| opening := opening s; highlights := highlights s;
     situation := situation s; accommodation := accommodation s;
     outside := v; services := services s; additional := additional s |}.

Definition setServices (s : Sections) (v : string) : Sections :=
  {| opening := opening s; highlights := highlights s;
     situation := situation s; accommodation := accommodation s;
     outside := outside s; services := v; additional := additional s |}.

Definition pushAdditional (s : Sections) (v : string * string) : Sections :=
  {| opening := opening s; highlights := highlights s;
     situation := situation s; accommodation := accommodation s;
     outside := outside s; services := services s;
     additional := additional s ++ [v] |}.

(** [a || b] on strings that are always present. *)
Definition orElse (a b : string) : string :=
  if String.eqb a "" then b else a.

(** [sections.accommodation ? sections.accommodation + '\n\n' + d : d] *)
Definition appendParagraph (s : Sections) (d : string) : Sections :=
  setAccommodation s
    (if String.eqb (accommodation s) "" then d
     else accommodation s +:+ nl +:+ nl +:+ d).

(** The part of the page callback that files the description. *)
Definition fileDescription (s : Sections) (page : Page) : Sections :=
  let pageName := toLowerCase (Js.strOr (name page) "") in
  let d := Js.strOr (description (Js.objOr (content page) noContent)) "" in
  if includes pageName "location" || includes pageName "situation" then
    setSituation s (orElse d (situation s))
  else if includes pageName "living" || includes pageName "reception"
          || includes pageName "accommodation" then appendParagraph s d
  else if includes pageName "kitchen" then appendParagraph s d
  else if includes pageName "bedroom" then appendParagraph s d
  else if includes pageName "bathroom" then appendParagraph s d
  else if includes pageName "garden" || includes pageName "outside"
          || includes pageName "exterior" then
    setOutside s (orElse d (outside s))
  else if includes pageName "contact" || includes pageName "service" then
    setServices s (orElse d (services s))
  else if negb (String.eqb d "") then
    pushAdditional s (Js.strOr (name page) "Details", d)
  else s.

(** The callback of [blocks.forEach]. *)
Definition fileBlock (s : Sections) (block : Block) : Sections :=
  let isPhoto := match blockType block with
                 | Some t => String.eqb t "photo"
                 | None => false
                 end in
  if negb isPhoto && Js.strTruthy (blockContent block) then
    let c := Js.strOr (blockContent block) "" in
    let title :=
      toLowerCase
        (Js.strOr (blockTitle block) (Js.strOr (blockType block) "")) in
    if includes title "situation" || includes title "location" then
      setSituation s (orElse (situation s) c)
    else if includes title "accommodation" then
      setAccommodation s (orElse (accommodation s) c)
    else if includes title "garden" || includes title "outside" then
      setOutside s (orElse (outside s) c)
    else if includes title "service" then
      setServices s (orElse (services s) c)
    else if includes title "brief" || includes title "highlight" then
      let points :=
        List.filter (fun p => negb (String.eqb (trim p) ""))
          (splitPoints "" c) in
      setHighlights s (highlights s ++ List.map trim points)
    else s
  else s.

(** The callback of [pages.forEach]. *)
Definition filePage (s : Sections) (page : Page) : Sections :=
  let c := Js.objOr (content page) noContent in
  let blocks := Js.objOr (contentBlocks page) [] in
  let s1 := if Js.strTruthy (intro c)
            then setOpening s (Js.strOr (intro c) "") else s in
  let s2 := match contentHighlights c with
            | Some hs => setHighlights s1 (highlights s1 ++ hs)
            | None => s1
            end in
  let s3 := fileDescription s2 page in
  fold_left fileBlock blocks s3.

(** [extractContentSections(pages)]; [None] stands for a null or
    undefined argument. *)
Definition extractContentSections (pages : option (list Page)) : Sections :=
  match pages with
  | None | Some [] => emptySections
  | Some ps =>
      let s := fold_left filePage ps emptySections in
      setHighlights s (firstn 8 (setOf [] (highlights s)))
  end.

(** ** Export *)

Inductive ImageFormat := jpeg | png.

Record Blob := mkBlob { mime : string; payload : string }.

(** The canvas [generatePageImage] draws: its size and the page drawn
    on the white background. *)
Record PageCanvas := mkPageCanvas {
  canvasWidth : Z;
  canvasHeight : Z;
  drawn : Page
}.

Record Request := mkRequest {
  url : string;
  method : string;
  body : BrochureData      (* JSON.stringify(window.brochureData) *)
}.

(** The preview document, reduced to what it takes from the pages: the
    markup is a fixed template around these sections. *)
Record Preview := mkPreview {
  previewSections : Sections
}.

(** An entry of the zip archive. *)
Inductive Entry :=
| PdfFile (fileName : string) (b : Blob)
| ImageFile (fileName : string) (b : Blob)     (* in images/ *)
| PreviewFile (fileName : string) (p : Preview)
| ReadmeFile (fileName : string).

Inductive Event :=
| Progress (text : string) (percentage : Q)
| ConsoleError (message : string)
| Download (fileName : string) (entries : list Entry)
| Toast (first second : string)
| ToastLater (delay : Z) (first second : string).

(** The browser around one export: the data on [window], whether
    JSZip can be loaded, what the export endpoint answers ([None] for a
    network error or a non-2xx status), and what [canvas.toBlob] hands
    to its callback ([None] for null). *)
Record Env := mkEnv {
  brochureData : option BrochureData;
  loadJSZip : bool;
  showToastDefined : bool;
  fetchBlob : Request -> option Blob;
  toBlob : PageCanvas -> string -> Q -> option Blob
}.

(** [exportPDFBlob()]: the requests sent, the blob or null, and what
    was logged. *)
Definition exportPDFBlob (env : Env)
    : list Request * option Blob * list Event :=
  match brochureData env with
  | Some data =>
      match pages data with
      | Some _ =>
          let req := {| url := "/api/export/brochure"; method := "POST";
                        body := data |} in
          match fetchBlob env req with
          | Some b => ([req], Some b, [])
          | None => ([req], None, [ConsoleError "PDF export error:"])
          end
      | None => ([], None, [ConsoleError "PDF export error:"])
      end
  | None => ([], None, [ConsoleError "PDF export error:"])
  end.

(** [generatePageImage(page, format, quality)]; [None] is a rejected
    promise. *)
Definition generatePageImage (env : Env) (page : Page)
    (format : ImageFormat) (quality : Q) : option Blob :=
  let w := match format with png => 2480%Z | jpeg => 1240%Z end in
  let h := match format with png => 3508%Z | jpeg => 1754%Z end in
  toBlob env {| canvasWidth := w; canvasHeight := h; drawn := page |}
    (match format with png => "image/png" | jpeg => "image/jpeg" end)
    quality.

Definition imageName (i : nat) (format : ImageFormat) : string :=
  "page_" +:+ pretty (i + 1)%nat +:+
  match format with jpeg => ".jpg" | png => ".png" end.

(** One iteration of the image loop, with its [try]/[catch]: the files
    added to the images folder and the events. *)
Definition pageImages (env : Env) (total i : nat) (page : Page)
    : list Entry * list Event :=
  let failed :=
    ConsoleError ("Failed to generate images for page "
                  +:+ pretty (i + 1)%nat +:+ ":") in
  match generatePageImage env page jpeg (85 # 100) with
  | None => ([], [failed])
  | Some jpegBlob =>
      let jpg := ImageFile (imageName i jpeg) jpegBlob in
      match generatePageImage env page png 1 with
      | None => ([jpg], [failed])
      | Some pngBlob =>
          ([jpg; ImageFile (imageName i png) pngBlob],
           [Progress ("Generated images for page " +:+ pretty (i + 1)%nat
                      +:+ "/" +:+ pretty total)
              (40 + (inject_Z (Z.of_nat (i + 1))
                     / inject_Z (Z.of_nat total)) * 40)])
      end
  end.

(** [for (let i = 0; i < Math.min(pages.length, 10); i++)] *)
Definition imagesLoop (env : Env) (ps : list Page)
    : list (list Entry * list Event) :=
  List.map
    (fun i => match ps !! i with
              | Some page => pageImages env (length ps) i page
              | None => ([], [])
              end)
    (seq 0 (Nat.min (length ps) 10)).

Definition generateHTMLPreview (ps : list Page) : Preview :=
  {| previewSections := extractContentSections (Some ps) |}.

(** What one run of [exportMultipleFormats] did. *)
Record Export := mkExport {
  requests : list Request;
  archive : option (list Entry);     (* the downloaded zip, if any *)
  events : list Event
}.

Definition exportMultipleFormats (env : Env) : Export :=
  if negb (loadJSZip env) then
    {| requests := []; archive := None;
       events := [ConsoleError "Multi-format export failed:"]
                 ++ (if showToastDefined env
                     then [Toast "error" "Export failed"] else []) |}
  else
    let '(reqs, pdfBlob, pdfEvents) := exportPDFBlob env in
    let pdfEntries :=
      match pdfBlob with
      | Some b => [PdfFile "brochure.pdf" b]
      | None => []
      end in
    let ps := Js.objOr (match brochureData env with
                        | Some d => pages d
                        | None => None
                        end) [] in
    let loop := imagesLoop env ps in
    let entries :=
      pdfEntries ++ concat (List.map fst loop)
      ++ [PreviewFile "preview.html" (generateHTMLPreview ps);
          ReadmeFile "README.txt"] in
    {| requests := reqs;
       archive := Some entries;
       events :=
         [Progress "Generating PDF..." 10] ++ pdfEvents
         ++ (match pdfBlob with
             | Some _ => [Progress "PDF generated successfully" 30]
             | None => []
             end)
         ++ [Progress "Generating page images..." 40]
         ++ concat (List.map snd loop)
         ++ [Progress "Creating HTML preview..." 85;
             Progress "Packaging files..." 90;
             Progress "Download ready!" 100;
             Download "brochure-multi-format.zip" entries]
         ++ (if showToastDefined env
             then [ToastLater 1000 "success"
                     "Multi-format export complete!"]
             else []) |}.

(** The names of the page images in an archive, in order. *)
Definition imageNames (entries : list Entry) : list string :=
  flat_map (fun e => match e with
                     | ImageFile n _ => [n]
                     | _ => []
                     end) entries.


(** A sample document and browser. *)
Definition samplePage (n : string) : Page :=
  {| name := Some n;
     content := Some {| intro := None;
                        contentHighlights := Some ["Garden"; "Garage"];
                        description := Some "A bright room." |};
     contentBlocks := None |}.

Definition twelvePages : list Page :=
  List.map samplePage
    ["Cover"; "Living Room"; "Kitchen"; "Bedroom 1"; "Bedroom 2";
     "Bathroom"; "Garden"; "Location"; "Floorplan"; "Services";
     "Contact"; "Notes"].


(** A browser whose canvas cannot produce PNG rasters. *)
Definition noPngEnv : Env :=
  {| brochureData := Some {| pages := Some (firstn 2 twelvePages) |};
     loadJSZip := true;
     showToastDefined := true;
     fetchBlob := fun _ => None;
     toBlob := fun c m _ =>
       if String.eqb m "image/png" then None else Some (mkBlob m "raster") |}.

End MultiFormatExport.

(* ===================================================================== *)
(** * frontend/smart_guides.js: guides overlay, spacing, alignment,
      distribution *)
(* ===================================================================== *)

Module SmartGuidesTools.

Import SmartGuides.
Local Open Scope Q_scope.

(** ** Rendering and clearing guides *)

(** [renderGuides(activeGuides)]: without a container nothing happens;
    otherwise the container is emptied and, when enabled, gets one line
    per guide.  [None] is a null or undefined argument. *)
Definition renderGuides (st : State) (activeGuides : option (list Guide))
    : State :=
  match guidesContainer st with
  | None => st
  | Some _ =>
      let drawn :=
        match activeGuides with
        | Some gs => if isEnabled st then gs else []
        | None => []
        end in
      {| CONFIG := CONFIG st; guides := guides st;
         activeElement := activeElement st; canvas := canvas st;
         guidesContainer := Some drawn; isEnabled := isEnabled st |}
  end.

(** The box a rendered guide line occupies in the container. *)
Definition lineBox (cfg : Config) (g : Guide) : DOMRect :=
  match gtype g with
  | vertical =>
      {| rleft := gpos g; rtop := gfrom g;
         rwidth := guideWidth cfg; rheight := gto g - gfrom g |}
  | horizontal =>
      {| rleft := gfrom g; rtop := gpos g;
         rwidth := gto g - gfrom g; rheight := guideWidth cfg |}
  end.

(** ** getSpacing *)

Definition rright (r : DOMRect) : Q := rleft r + rwidth r.
Definition rbottom (r : DOMRect) : Q := rtop r + rheight r.

Record Spacing := mkSpacing { horizontalGap : Q; verticalGap : Q }.

Definition getSpacing (element1 element2 : Element) : Spacing :=
  let rect1 := boundingRect element1 in
  let rect2 := boundingRect element2 in
  {| horizontalGap :=
       Qmax 0 (Qmax (rleft rect1) (rleft rect2)
               - Qmin (rright rect1) (rright rect2));
     verticalGap :=
       Qmax 0 (Qmax (rtop rect1) (rtop rect2)
               - Qmin (rbottom rect1) (rbottom rect2)) |}.

(** ** alignToCanvas *)

(** An element together with its inline position: [style.left] and
    [style.top] as the numbers [parseFloat] reads from them, [None] when
    it reads none. *)
Record Styled := mkStyled {
  node : Element;
  styleLeft : option Q;
  styleTop : option Q
}.

Record Position := mkPosition { posX : Q; posY : Q }.

(** [alignToCanvas(element, alignment)]: the element after the call and
    the returned [{x, y}]; [None] when the function returns early,
    touching nothing. *)
Definition alignToCanvas (st : State) (element : option Styled)
    (alignment : string) : option (Styled * Position) :=
  match canvas st, element with
  | Some c, Some e =>
      let canvasRect := canvasRect c in
      let elementRect := boundingRect (node e) in
      let newX := Js.numOr (styleLeft e) 0 in
      let newY := Js.numOr (styleTop e) 0 in
      let '(newX, newY) :=
        if String.eqb alignment "left" then (0, newY)
        else if String.eqb alignment "center-h" then
          ((rwidth canvasRect - rwidth elementRect) / 2, newY)
        else if String.eqb alignment "right" then
          (rwidth canvasRect - rwidth elementRect, newY)
        else if String.eqb alignment "top" then (newX, 0)
        else if String.eqb alignment "center-v" then
          (newX, (rheight canvasRect - rheight elementRect) / 2)
        else if String.eqb alignment "bottom" then
          (newX, rheight canvasRect - rheight elementRect)
        else if String.eqb alignment "center" then
          ((rwidth canvasRect - rwidth elementRect) / 2,
           (rheight canvasRect - rheight elementRect) / 2)
        else (newX, newY) in
      Some ({| node := node e; styleLeft := Some newX;
               styleTop := Some newY |},
            {| posX := newX; posY := newY |})
  | _, _ => None
  end.

(** Successive alignments of one element. *)
Fixpoint alignAll (st : State) (e : Styled) (alignments : list string)
    : option Styled :=
  match alignments with
  | [] => Some e
  | a :: rest =>
      match alignToCanvas st (Some e) a with
      | Some (e', _) => alignAll st e' rest
      | None => None
      end
  end.

(** The inline position as the next call reads it back. *)
Definition inlineX (e : Styled) : Q := Js.numOr (styleLeft e) 0.
Definition inlineY (e : Styled) : Q := Js.numOr (styleTop e) 0.

Definition samePlace (a b : option Styled) : Prop :=
  match a, b with
  | Some u, Some v =>
      node u = node v /\ inlineX u == inlineX v /\ inlineY u == inlineY v
  | _, _ => False
  end.

(** ** distributeElements *)
















(** Three boxes in a row, unevenly spaced, for the examples. *)
Definition boxA : Styled :=
  mkStyled (mkElement 1 ["design-element"] (mkRect 110 50 40 40) true)
    (Some 100) (Some 40).
Definition boxB : Styled :=
  mkStyled (mkElement 2 ["design-element"] (mkRect 160 50 60 40) true)
    (Some 150) (Some 40).
Definition boxC : Styled :=
  mkStyled (mkElement 3 ["design-element"] (mkRect 410 50 100 40) true)
    (Some 400) (Some 40).

Definition stage : State :=
  init initial {| canvasRect := mkRect 10 10 800 600;
                  descendants := [node boxA; node boxB; node boxC] |} None.

End SmartGuidesTools.

(* ===================================================================== *)
(** * The undo history: what a consistent stack is *)
(* ===================================================================== *)

Module EditorTools.

Import Editor.

(** The index points into the stack (or is -1 on an empty one) and the
    stack respects its bound. *)
Definition historyOk (e : EditorState) : Prop :=
  (-1 <= historyIndex e < Z.of_nat (length (history e)))%Z /\
  (Z.of_nat (length (history e)) <= maxHistorySize e)%Z.


(** Everything of the editor state but the history stack and index. *)
Definition sameDocument (e e' : EditorState) : Prop :=
  sessionProperty e' = sessionProperty e /\
  sessionPages e' = sessionPages e /\
  currentPage e' = currentPage e /\
  isDirty e' = isDirty e /\
  pageDescriptions e' = pageDescriptions e /\
  maxHistorySize e' = maxHistorySize e /\
  isUndoRedo e' = isUndoRedo e /\
  elements e' = elements e /\
  layerOrder e' = layerOrder e /\
  selectedElements e' = selectedElements e.

End EditorTools.

(* ===================================================================== *)
(** * Adding an element: what a successful call does *)
(* ===================================================================== *)

Module ElementsLibraryTools.

Import Editor ElementsLibrary.
Local Open Scope Q_scope.

Section WithElementDrag.

Context {S : Type} `{ElementDrag S}.

(** The tail of [addElementAtPosition] once the element [d] is built:
    snapshot, insertion, deferred selection, toast. *)
Definition inserted (env : Env) (elementType pageId : string)
    (d : DesignElement) (w : World) : World :=
  showToast env ("Added " +:+ elementType) "success"
    (emit (addElementToPage d pageId
             (saveToHistoryIfDefined env "add element" w))
       [SelectLater 50 (id d)]).

(** The centre of an element's box. *)
Definition centreX (d : DesignElement) : Q :=
  px (position d) + swidth (size d) / 2.
Definition centreY (d : DesignElement) : Q :=
  py (position d) + sheight (size d) / 2.

(** The element types [addElementAtPosition] has a case for. *)
Definition knownType (elementType : string) : bool :=
  String.eqb elementType "shape" || String.eqb elementType "icon"
  || String.eqb elementType "qrcode".

End WithElementDrag.

(** A world whose selected page has been removed from the document. *)
Definition orphaned : World :=
  setEditor world0
    {| sessionProperty := None; sessionPages := []; currentPage := Some "p9";
       isDirty := false; pageDescriptions := ∅;
       history := []; historyIndex := (-1)%Z; maxHistorySize := 50%Z;
       isUndoRedo := false; elements := ∅; layerOrder := ∅;
       selectedElements := [] |}.

End ElementsLibraryTools.

(* ===================================================================== *)
(** * frontend/color_schemes.js: custom colours and the swatch grid *)
(* ===================================================================== *)

Module ColorSchemesTools.

Import Editor ColorSchemes.
Local Open Scope Q_scope.

(** [getCustomSchemeFromInputs()]: the five colour inputs, each with
    its default when the input is missing or empty. *)
Definition getCustomSchemeFromInputs (d : Dom) : ColorScheme :=
  {| name := "Custom";
     primary := Js.strOr (inputs d !! "schemePrimary") "#1a365d";
     secondary := Js.strOr (inputs d !! "schemeSecondary") "#c9a961";
     accent := Js.strOr (inputs d !! "schemeAccent") "#ed8936";
     background := Js.strOr (inputs d !! "schemeBackground") "#ffffff";
     text := Js.strOr (inputs d !! "schemeText") "#2d3748" |}.

(** [applyCustomColorScheme(currentPageOnly)], threading the world and
    the module variable [currentScheme]. *)
Definition applyCustomColorScheme (env : Env) (currentPageOnly : bool)
    (w : World) (currentScheme : option string) : World * option string :=
  let scheme := getCustomSchemeFromInputs (dom w) in
  let currentScheme' : option string := None in
  let w1 := applyColorsToPages scheme currentPageOnly w in
  let w2 := renderColorSchemesGrid currentScheme' w1 in
  let w3 :=
    if hasShowToast env then
      globalShowToast
        ("Applied custom color scheme"
         +:+ (if currentPageOnly then " to current page" else ""))
        "success" w2
    else w2 in
  let w4 := setEditor w3 (setDirty (editor w3) true) in
  (saveToHistoryIfDefined env "apply custom colors" w4, currentScheme').

(** The ids of the colour panel's inputs. *)
Definition colorInputIds : list string :=
  ["schemePrimary"; "schemePrimaryHex"; "schemeSecondary";
   "schemeSecondaryHex"; "schemeAccent"; "schemeAccentHex";
   "schemeBackground"; "schemeBackgroundHex"; "schemeText";
   "schemeTextHex"].

(** The five colours of a scheme, without its name. *)
Definition colours (s : ColorScheme) : list string :=
  [primary s; secondary s; accent s; background s; text s].

(** The [categories] table of [renderColorSchemesGrid]. *)
Definition categories : list (string * list string) :=
  [("Professional",
    ["classicNavy"; "corporateBlue"; "executiveGray"; "professionalGreen"]);
   ("Luxury",
    ["blackGold"; "platinumLux"; "roseGoldElite"; "sapphireRoyal";
     "emeraldPrestige"]);
   ("Modern", ["modernMono"; "cleanSlate"; "urbanChic"; "techModern"]);
   ("Bold", ["sunsetCoral"; "oceanBreeze"; "forestFresh"; "berryBliss"]);
   ("Natural", ["warmSand"; "stoneNatural"; "woodlandBrown"; "terracotta"]);
   ("British Cosy",
    ["britishCottage"; "cosyHearth"; "sageAndStone"; "dustyRose";
     "warmTaupe"; "heritageGreen"; "countryManor"; "coastalCalm"]);
   ("UK Agencies",
    ["savillsStyle"; "knightFrankStyle"; "foxtonsStyle";
     "purpleBricksStyle"; "rightmoveStyle"; "zooplaStyle"; "hamptonsStyle";
     "dextersStyle"])].

(** The swatches the grid draws, in order: a listed id without a scheme
    is skipped ([if (!scheme) return '']). *)
Definition swatches : list string :=
  flat_map
    (fun cat =>
       List.filter
         (fun schemeId =>
            match COLOR_SCHEMES !! schemeId with
            | Some _ => true
            | None => false
            end) (snd cat))
    categories.

(** A colour written as # and six lower-case hexadecimal digits: the
    form a colour input keeps unchanged. *)
Definition isHexDigit (c : ascii) : bool :=
  let n := nat_of_ascii c in
  ((48 <=? n)%nat && (n <=? 57)%nat) || ((97 <=? n)%nat && (n <=? 102)%nat).

Definition isHexColour (s : string) : bool :=
  match s with
  | String c rest =>
      Ascii.eqb c "#" && (String.length rest =? 6)%nat
      && forallb isHexDigit (list_ascii_of_string rest)
  | EmptyString => false
  end.

(** ** What recolouring leaves alone *)

(** An attribute no pass paints: absent, or the literal none. *)
Definition unpainted (a : option string) : bool :=
  match a with
  | None => true
  | Some v => String.eqb v "none"
  end.

(** A background the decorative pass skips. *)
Definition clearBackground (bg : string) : bool :=
  String.eqb bg "" || String.eqb bg "transparent"
  || String.eqb bg "rgba(0, 0, 0, 0)".

Definition keepsUnpainted (n n' : SvgNode) : Prop :=
  (unpainted (fillAttr n) = true -> fillAttr n' = fillAttr n) /\
  (unpainted (strokeAttr n) = true -> strokeAttr n' = strokeAttr n).

Definition sameElement (d d' : Draggable) : Prop :=
  dataElementType d' = dataElementType d /\
  rectTop d' = rectTop d /\ rectBottom d' = rectBottom d /\
  (clearBackground (backgroundColor d) = true ->
     backgroundColor d' = backgroundColor d) /\
  (dataElementType d <> "shape" -> dataElementType d <> "icon" ->
     svgNodes d' = svgNodes d) /\
  Forall2 keepsUnpainted (svgNodes d) (svgNodes d').

Definition sameText (t t' : TextEl) : Prop :=
  fontSize t' = fontSize t /\ headingClass t' = headingClass t /\
  tagName t' = tagName t.

Definition samePage (p p' : PageDom) : Prop :=
  dataPageId p' = dataPageId p /\
  pageTop p' = pageTop p /\ pageHeight p' = pageHeight p /\
  offsetWidth p' = offsetWidth p /\ offsetHeight p' = offsetHeight p /\
  Forall2 sameElement (draggables p) (draggables p') /\
  Forall2 sameText (texts p) (texts p') /\
  length (badges p') = length (badges p).

(** ** What recolouring paints *)

(** An attribute value a shape may carry after recolouring with [c]:
    [c] itself, or one of the values the pass leaves alone. *)
Definition shapeAttrAfter (c : string) (a : option string) : Prop :=
  a = None \/ a = Some c \/ a = Some "none" \/ a = Some ""
  \/ a = Some "currentColor".

Definition iconAttrAfter (c : string) (a : option string) : Prop :=
  a = None \/ a = Some c \/ a = Some "none".

Definition paintedElement (s : ColorScheme) (d : Draggable) : Prop :=
  (clearBackground (backgroundColor d) = true \/
   backgroundColor d = primary s \/ backgroundColor d = secondary s) /\
  (dataElementType d = "shape" ->
     Forall (fun n => shapeAttrAfter (primary s) (fillAttr n) /\
                      shapeAttrAfter (secondary s) (strokeAttr n))
       (svgNodes d)) /\
  (dataElementType d = "icon" ->
     Forall (fun n => iconAttrAfter (accent s) (fillAttr n) /\
                      iconAttrAfter (accent s) (strokeAttr n))
       (svgNodes d)).

Definition paintedPage (s : ColorScheme) (p : PageDom) : Prop :=
  pageBackground p = background s /\
  Forall (paintedElement s) (draggables p) /\
  Forall (fun t => color t = primary s \/ color t = text s) (texts p) /\
  Forall (fun b => b = accent s) (badges p).

(** A page with one of each kind of node, and a world with the colour
    panel present, for the examples. *)
Definition busyPage : PageDom :=
  {| dataPageId := "p1"; pageBackground := "#ffffff";
     pageTop := 0; pageHeight := 1000;
     offsetWidth := 700; offsetHeight := 1000;
     draggables :=
       [ {| dataElementType := "shape";
            svgNodes := [mkSvgNode (Some "#C20430") (Some "none")];
            backgroundColor := ""; rectTop := 300; rectBottom := 400 |};
         {| dataElementType := "icon";
            svgNodes := [mkSvgNode (Some "#374151") None];
            backgroundColor := "red"; rectTop := 10; rectBottom := 60 |} ];
     texts := [mkTextEl 32 false "DIV" "#000000";
               mkTextEl 14 false "P" "#000000"];
     badges := ["gold"] |}.

Definition plainPage : PageDom :=
  {| dataPageId := "p2"; pageBackground := "";
     pageTop := 1100; pageHeight := 1000;
     offsetWidth := 700; offsetHeight := 1000;
     draggables := []; texts := [mkTextEl 40 true "H1" ""]; badges := [] |}.

Definition studio : World :=
  {| editor := initialState;
     dom := {| pages := [busyPage; plainPage];
               inputs := list_to_map
                 (List.map (fun i => (i, "#000000")) colorInputIds);
               colorSchemesGrid := Some None |};
     log := [] |}.

End ColorSchemesTools.

(* ===================================================================== *)
(** * frontend/multi_format_export.js: the archive, progress, text *)
(* ===================================================================== *)

Module ExportTools.

Import MultiFormatExport.
Local Open Scope Q_scope.

(** The path of an entry inside the zip: page images are written into
    the folder [images]. *)
Definition entryPath (e : Entry) : string :=
  match e with
  | PdfFile n _ => n
  | ImageFile n _ => "images/" +:+ n
  | PreviewFile n _ => n
  | ReadmeFile n => n
  end.

Definition isImage (e : Entry) : Prop :=
  match e with ImageFile _ _ => True | _ => False end.

(** [window.brochureData?.pages || []] *)
Definition pagesOf (env : Env) : list Page :=
  Js.objOr (match brochureData env with
            | Some d => pages d
            | None => None
            end) [].

(** The percentages passed to [updateExportProgress], in order. *)
Definition percentages (evs : list Event) : list Q :=
  flat_map (fun e => match e with
                     | Progress _ p => [p]
                     | _ => []
                     end) evs.

Definition isDownload (e : Event) : Prop :=
  match e with Download _ _ => True | _ => False end.

(** A browser with no brochure loaded. *)
Definition emptyEnv : Env :=
  {| brochureData := None;
     loadJSZip := true;
     showToastDefined := true;
     fetchBlob := fun _ => Some (mkBlob "application/pdf" "pdf");
     toBlob := fun c m _ => Some (mkBlob m "raster") |}.

End ExportTools.

(* ===================================================================== *)
(** * Properties of the snap engine *)
(* ===================================================================== *)

Section SnapFacts.

Import SmartGuides.
Local Open Scope Q_scope.
Local Open Scope list_scope.

Local Arguments aligns : simpl never.

Lemma firstAlignment_cases cfg e t :
  firstAlignment cfg e t =
    if aligns cfg e t NearNear then Some (0%nat, NearNear)
    else if aligns cfg e t FarFar then Some (1%nat, FarFar)
    else if aligns cfg e t NearFar then Some (2%nat, NearFar)
    else if aligns cfg e t FarNear then Some (3%nat, FarNear)
    else if aligns cfg e t CenterCenter then Some (4%nat, CenterCenter)
    else None.
Proof.
  unfold firstAlignment, precedence.
  destruct (aligns cfg e t NearNear) eqn:E1;
  destruct (aligns cfg e t FarFar) eqn:E2;
  destruct (aligns cfg e t NearFar) eqn:E3;
  destruct (aligns cfg e t FarNear) eqn:E4;
  destruct (aligns cfg e t CenterCenter) eqn:E5;
  cbn; rewrite ?E1, ?E2, ?E3, ?E4, ?E5; reflexivity.
Qed.

Lemma adjustedElementTop_candidate newX newY sx :
  adjustedElementTop newX newY sx = newY.
Proof.
  unfold adjustedElementTop, elementTop.
  destruct (negb (Qeq_bool sx newX)); reflexivity.
Qed.

Lemma xBody_firstAlignment cfg cp w h newX newY acc t :
  xBody cfg cp w h newX newY acc t =
    match firstAlignment cfg (spanAt newX w) (spanX t) with
    | Some (_, a) =>
        hit acc (correction a w (spanX t)) (xGuide cp h newY a t)
    | None => acc
    end.
Proof.
  rewrite firstAlignment_cases.
  unfold xBody, aligns, allowed, xGuide, guideFor, guideExtent, vguide,
    elementLeft, elementRight, elementCenterX, elementTop, elementBottom.
  cbn [movingEdge targetEdge correction spanAt spanX spanY lo hi mid
       andb fst snd].
  repeat (match goal with
          | |- context [Js.within ?a ?b ?c] =>
              destruct (Js.within a b c); cbn [andb]
          end);
  try reflexivity; destruct (snapToCenter cfg); reflexivity.
Qed.

Lemma yBody_firstAlignment cfg cp w h newX newY sx acc t :
  yBody cfg cp w h newX newY sx acc t =
    match firstAlignment cfg (spanAt newY h) (spanY t) with
    | Some (_, a) =>
        hit acc (correction a h (spanY t)) (yGuide cp w sx a t)
    | None => acc
    end.
Proof.
  rewrite firstAlignment_cases.
  unfold yBody. rewrite adjustedElementTop_candidate.
  unfold aligns, allowed, yGuide, guideFor, guideExtent, hguide.
  cbn [movingEdge targetEdge correction spanAt spanX spanY lo hi mid
       andb fst snd].
  repeat (match goal with
          | |- context [Js.within ?a ?b ?c] =>
              destruct (Js.within a b c); cbn [andb]
          end);
  try reflexivity; destruct (snapToCenter cfg); reflexivity.
Qed.

Local Arguments firstAlignment : simpl never.

Lemma xLoop_snapped cfg cp w h newX newY ts acc :
  snapped acc = true -> xLoop cfg cp w h newX newY ts acc = acc.
Proof. intros H. destruct ts; cbn; [reflexivity | now rewrite H]. Qed.

Lemma yLoop_snapped cfg cp w h newX newY sx ts acc :
  snapped acc = true -> yLoop cfg cp w h newX newY sx ts acc = acc.
Proof. intros H. destruct ts; cbn; [reflexivity | now rewrite H]. Qed.

Lemma axisSnap_cons cfg e proj t ts :
  axisSnap cfg e proj (t :: ts) =
    match firstAlignment cfg e (proj (points t)) with
    | Some (_, a) => Some (0%nat, t, a)
    | None =>
        match axisSnap cfg e proj ts with
        | Some (i, t', a) => Some (S i, t', a)
        | None => None
        end
    end.
Proof.
  unfold axisSnap, firstTarget. cbn [list_find].
  destruct (firstAlignment cfg e (proj (points t))) as [[k a]|] eqn:E.
  - rewrite decide_True by eauto. now rewrite E.
  - rewrite decide_False by (intros [? ?]; discriminate).
    destruct (list_find _ ts) as [[i t']|]; cbn; [|reflexivity].
    destruct (firstAlignment cfg e (proj (points t'))) as [[? ?]|];
      reflexivity.
Qed.

Lemma xLoop_axisSnap cfg cp w h newX newY ts acc :
  snapped acc = false ->
  xLoop cfg cp w h newX newY ts acc =
    match axisSnap cfg (spanAt newX w) spanX ts with
    | Some (_, t, a) =>
        hit acc (correction a w (spanX (points t)))
          (xGuide cp h newY a (points t))
    | None => acc
    end.
Proof.
  revert acc. induction ts as [|t ts IH]; intros acc Hacc.
  - reflexivity.
  - cbn [xLoop]. rewrite Hacc, axisSnap_cons, xBody_firstAlignment.
    destruct (firstAlignment cfg (spanAt newX w) (spanX (points t)))
      as [[k a]|].
    + now apply xLoop_snapped.
    + rewrite (IH acc Hacc).
      destruct (axisSnap cfg (spanAt newX w) spanX ts) as [[[i t'] a]|];
        reflexivity.
Qed.

Lemma yLoop_axisSnap cfg cp w h newX newY sx ts acc :
  snapped acc = false ->
  yLoop cfg cp w h newX newY sx ts acc =
    match axisSnap cfg (spanAt newY h) spanY ts with
    | Some (_, t, a) =>
        hit acc (correction a h (spanY (points t)))
          (yGuide cp w sx a (points t))
    | None => acc
    end.
Proof.
  revert acc. induction ts as [|t ts IH]; intros acc Hacc.
  - reflexivity.
  - cbn [yLoop]. rewrite Hacc, axisSnap_cons, yBody_firstAlignment.
    destruct (firstAlignment cfg (spanAt newY h) (spanY (points t)))
      as [[k a]|].
    + now apply yLoop_snapped.
    + rewrite (IH acc Hacc).
      destruct (axisSnap cfg (spanAt newY h) spanY ts) as [[[i t'] a]|];
        reflexivity.
Qed.











Lemma calculateSnap_ready st el newX newY c :
  isEnabled st = true -> canvas st = Some c ->
  calculateSnap st el newX newY =
    (snapAgainst (CONFIG st) (getCanvasSnapPoints c)
       (rwidth (boundingRect el)) (rheight (boundingRect el)) newX newY
       (snapTargets (setActive st (Some (nodeId el))) c),
     setActive st (Some (nodeId el))).
Proof. intros He Hc. unfold calculateSnap. now rewrite He, Hc. Qed.




(** ** The two passes do not influence each other's decision *)

Lemma xLoop_guides_vertical cfg cp w h newX newY ts :
  let xl := xLoop cfg cp w h newX newY ts (start newX []) in
  List.filter isHorizontal (activeGuides xl) = [] /\
  List.filter isVertical (activeGuides xl) = activeGuides xl /\
  (length (activeGuides xl) <= 1)%nat.
Proof.
  cbn zeta. rewrite xLoop_axisSnap by reflexivity.
  destruct (axisSnap _ _ _ ts) as [[[i t] a]|]; cbn; auto.
Qed.

Lemma yDecision_snapAgainst cfg cp w h newX newY ts :
  yDecision (snapAgainst cfg cp w h newX newY ts) =
    match axisSnap cfg (spanAt newY h) spanY ts with
    | Some (_, t, a) =>
        (correction a h (spanY (points t)), Some true,
         [targetEdge a (spanY (points t))])
    | None =>
        (if snapToGrid cfg then gridRound cfg newY else newY,
         Some false, [])
    end.
Proof.
  unfold yDecision, snapAgainst. cbn [y snappedY rguides].
  destruct (xLoop_guides_vertical cfg cp w h newX newY ts) as (Hh & _ & _).
  cbn zeta in Hh.
  rewrite yLoop_axisSnap by reflexivity.
  destruct (axisSnap cfg (spanAt newY h) spanY ts) as [[[i t] a]|].
  - cbn. rewrite andb_false_r, List.filter_app, Hh. reflexivity.
  - cbn. rewrite Hh, andb_true_r. reflexivity.
Qed.

Lemma xDecision_snapAgainst cfg cp w h newX newY ts :
  xDecision (snapAgainst cfg cp w h newX newY ts) =
    match axisSnap cfg (spanAt newX w) spanX ts with
    | Some (_, t, a) =>
        (correction a w (spanX (points t)), Some true,
         [targetEdge a (spanX (points t))])
    | None =>
        (if snapToGrid cfg then gridRound cfg newX else newX,
         Some false, [])
    end.
Proof.
  unfold xDecision, snapAgainst. cbn [x snappedX rguides].
  rewrite yLoop_axisSnap by reflexivity.
  rewrite xLoop_axisSnap by reflexivity.
  destruct (axisSnap cfg (spanAt newX w) spanX ts) as [[[i t] a]|];
    destruct (axisSnap cfg (spanAt newY h) spanY ts) as [[[j u] b]|];
    cbn; rewrite ?andb_false_r, ?andb_true_r; reflexivity.
Qed.

Lemma yDecision_candidate_x st el newX newX' newY :
  yDecision (fst (calculateSnap st el newX newY)) =
  yDecision (fst (calculateSnap st el newX' newY)).
Proof.
  unfold calculateSnap.
  destruct (isEnabled st); [|reflexivity].
  destruct (canvas st) as [c|]; [|reflexivity].
  cbn [fst]. now rewrite !yDecision_snapAgainst.
Qed.

Lemma xDecision_candidate_y st el newX newY newY' :
  xDecision (fst (calculateSnap st el newX newY)) =
  xDecision (fst (calculateSnap st el newX newY')).
Proof.
  unfold calculateSnap.
  destruct (isEnabled st); [|reflexivity].
  destruct (canvas st) as [c|]; [|reflexivity].
  cbn [fst]. now rewrite !xDecision_snapAgainst.
Qed.

Lemma snapAgainst_one_guide_per_axis cfg cp w h newX newY ts :
  exists gx gy,
    rguides (snapAgainst cfg cp w h newX newY ts) = gx ++ gy /\
    (length gx <= 1)%nat /\ (length gy <= 1)%nat /\
    forallb isVertical gx = true /\ forallb isHorizontal gy = true.
Proof.
  unfold snapAgainst. cbn [rguides].
  rewrite yLoop_axisSnap by reflexivity.
  rewrite xLoop_axisSnap by reflexivity.
  destruct (axisSnap cfg (spanAt newX w) spanX ts) as [[[i t] a]|];
    destruct (axisSnap cfg (spanAt newY h) spanY ts) as [[[j u] b]|];
    cbn [activeGuides hit start app].
  - exists [xGuide cp h newY a (points t)],
      [yGuide cp w (correction a w (spanX (points t))) b (points u)].
    cbn. repeat split; auto.
  - exists [xGuide cp h newY a (points t)], []. cbn. repeat split; auto.
  - exists [], [yGuide cp w newX b (points u)]. cbn. repeat split; auto.
  - exists [], []. cbn. repeat split; auto.
Qed.

(** C2 (amended).  [calculateSnap] makes one pass per axis, X first:
    it emits at most one vertical guide followed by at most one
    horizontal guide.  The Y pass tests the candidate Y only
    ([adjustedElementTop] is [newY] on both branches): the returned
    [y], the [snappedY] flag and the position of the horizontal guide
    are the same whatever the candidate X is, hence whether or not X
    snapped.  Likewise the returned [x], [snappedX] and the vertical
    guide's position do not depend on the candidate Y: the Y pass never
    changes the X decision. *)
Theorem calculateSnap_axes_independent st el newX newX' newY newY' :
  let r := fst (calculateSnap st el newX newY) in
  (forall sx, adjustedElementTop newX newY sx = newY) /\
  yDecision r = yDecision (fst (calculateSnap st el newX' newY)) /\
  xDecision r = xDecision (fst (calculateSnap st el newX newY')) /\
  exists gx gy,
    rguides r = gx ++ gy /\
    (length gx <= 1)%nat /\ (length gy <= 1)%nat /\
    forallb isVertical gx = true /\ forallb isHorizontal gy = true.
Proof.
  cbn zeta. split; [apply adjustedElementTop_candidate|].
  split; [apply yDecision_candidate_x|].
  split; [apply xDecision_candidate_y|].
  unfold calculateSnap.
  destruct (isEnabled st);
    [destruct (canvas st) as [c|]|];
    cbn [fst];
    try apply snapAgainst_one_guide_per_axis;
    exists [], []; cbn; repeat split; auto.
Qed.

(** C2 as stated fails: no X snap can influence which Y alignments
    are tested or matched.  For no state, element and pair of calls
    that differ only in the candidate X does the Y decision differ. *)
Lemma x_snap_cannot_influence_y :
  ~ exists st el newX newX' newY,
      yDecision (fst (calculateSnap st el newX newY)) <>
      yDecision (fst (calculateSnap st el newX' newY)).
Proof.
  intros (st & el & newX & newX' & newY & H).
  apply H, yDecision_candidate_x.
Qed.

(** ** Module state *)

Lemma snapTargets_setActive st a b c :
  snapTargets (setActive (setActive st a) b) c = snapTargets (setActive st b) c.
Proof. reflexivity. Qed.

Lemma calculateSnap_forgets_active st a el newX newY :
  calculateSnap (setActive st a) el newX newY =
    (fst (calculateSnap st el newX newY),
     if isEnabled st && bool_decide (is_Some (canvas st))
     then setActive st (Some (nodeId el)) else setActive st a).
Proof.
  unfold calculateSnap. cbn [isEnabled canvas setActive CONFIG].
  destruct (isEnabled st); [|reflexivity].
  destruct (canvas st) as [c|]; reflexivity.
Qed.

(** C3 (amended).  The result of [calculateSnap] is a function of the
    element, the candidate position, the configuration, the enabled
    flag and the canvas: it does not depend on the module's previous
    [activeElement], and a second call with the same arguments, made in
    the state the first call left, returns the identical result and
    leaves that state as it is.  The call writes no DOM (canvas and
    elements are unchanged) and no module variable other than
    [activeElement], which it sets to the dragged element whenever
    snapping is enabled and the canvas initialised. *)
Theorem calculateSnap_deterministic st el newX newY :
  let r := fst (calculateSnap st el newX newY) in
  let st' := snd (calculateSnap st el newX newY) in
  calculateSnap st' el newX newY = (r, st') /\
  (forall a, fst (calculateSnap (setActive st a) el newX newY) = r) /\
  st' = (if isEnabled st && bool_decide (is_Some (canvas st))
         then setActive st (Some (nodeId el)) else st) /\
  CONFIG st' = CONFIG st /\ guides st' = guides st /\
  canvas st' = canvas st /\ guidesContainer st' = guidesContainer st /\
  isEnabled st' = isEnabled st.
Proof.
  cbn zeta. split.
  - unfold calculateSnap.
    destruct (isEnabled st) eqn:He; [|cbn; now rewrite He].
    destruct (canvas st) as [c|] eqn:Hc; [|cbn; now rewrite He, Hc].
    cbn [snd fst isEnabled canvas setActive CONFIG]. now rewrite He, Hc.
  - split; [intros a; now rewrite calculateSnap_forgets_active|].
    unfold calculateSnap.
    destruct (isEnabled st) eqn:He;
      [destruct (canvas st) as [c|] eqn:Hc|];
      cbn; repeat split; auto.
Qed.

(** C3 as stated fails: the call writes the module variable
    [activeElement]. *)
Lemma calculateSnap_writes_activeElement :
  activeElement ready = None /\
  activeElement (snd (calculateSnap ready dragged 328 50)) = Some 1%nat /\
  snd (calculateSnap ready dragged 328 50) <> ready.
Proof.
  split; [reflexivity|]. split; [reflexivity|].
  intros H. apply (f_equal activeElement) in H. discriminate H.
Qed.

(** ** Grid rounding *)








(** ** Snap targets *)

Lemma getSnappableElements_spec st c a e :
  canvas st = Some c -> activeElement st = Some a ->
  e ∈ getSnappableElements st <->
  e ∈ descendants c /\ matchesSelector e = true /\
  hasOffsetParent e = true /\ nodeId e <> a.
Proof.
  intros Hc Ha. unfold getSnappableElements, isActive. rewrite Hc, Ha.
  rewrite !list_elem_of_In, !filter_In, andb_true_iff, negb_true_iff,
    Nat.eqb_neq.
  tauto.
Qed.

Lemma snapTargets_spec st c a t :
  canvas st = Some c -> activeElement st = Some a ->
  t ∈ snapTargets st c <->
  t = canvasAsTarget c \/
  (snapToElements (CONFIG st) = true /\
   exists e, e ∈ descendants c /\ matchesSelector e = true /\
             hasOffsetParent e = true /\ nodeId e <> a /\
             t = elementAsTarget c e).
Proof.
  intros Hc Ha. unfold snapTargets. rewrite elem_of_cons.
  destruct (snapToElements (CONFIG st)).
  - rewrite list_elem_of_In, in_map_iff. split.
    + intros [->|(e & <- & He)]; [now left|right].
      split; [reflexivity|]. exists e.
      apply list_elem_of_In in He.
      apply (getSnappableElements_spec st c a e Hc Ha) in He.
      tauto.
    + intros [->|(_ & e & He1 & He2 & He3 & He4 & ->)]; [now left|right].
      exists e. split; [reflexivity|].
      apply list_elem_of_In.
      apply (getSnappableElements_spec st c a e Hc Ha). tauto.
  - split.
    + intros [->|H]; [now left | now apply elem_of_nil in H].
    + intros [->|[H _]]; [now left | discriminate H].
Qed.

Lemma xLoop_canvas_left cfg cp w h newX newY t ts :
  left (points t) = 0 ->
  Js.within newX 0 (snapThreshold cfg) = true ->
  let xl := xLoop cfg cp w h newX newY (t :: ts) (start newX []) in
  snapped xl = true /\ coord xl = 0.
Proof.
  intros Hl Hw. cbn [xLoop start snapped].
  assert (Hb : exists g,
             xBody cfg cp w h newX newY (start newX []) (points t) =
             hit (start newX []) 0 g).
  { unfold xBody, elementLeft. rewrite Hl, Hw. eauto. }
  destruct Hb as [g ->]. rewrite xLoop_snapped by reflexivity.
  now split.
Qed.

Lemma yLoop_canvas_top cfg cp w h newX newY sx gs t ts :
  top (points t) = 0 ->
  Js.within newY 0 (snapThreshold cfg) = true ->
  let yl := yLoop cfg cp w h newX newY sx (t :: ts) (start newY gs) in
  snapped yl = true /\ coord yl = 0.
Proof.
  intros Hl Hw. cbn [yLoop start snapped].
  assert (Hb : exists g,
             yBody cfg cp w h newX newY sx (start newY gs) (points t) =
             hit (start newY gs) 0 g).
  { unfold yBody. rewrite adjustedElementTop_candidate, Hl, Hw. eauto. }
  destruct Hb as [g ->]. rewrite yLoop_snapped by reflexivity.
  now split.
Qed.

Lemma snapAgainst_canvas_left cfg cp w h newX newY t ts :
  left (points t) = 0 ->
  Js.within newX 0 (snapThreshold cfg) = true ->
  let r := snapAgainst cfg cp w h newX newY (t :: ts) in
  snappedX r = Some true /\ x r = 0.
Proof.
  intros Hl Hw. unfold snapAgainst.
  destruct (xLoop_canvas_left cfg cp w h newX newY t ts Hl Hw) as [Hs Hc].
  cbn zeta in *. cbn [snappedX x]. rewrite Hs, Hc, andb_false_r.
  now split.
Qed.

Lemma snapAgainst_canvas_top cfg cp w h newX newY t ts :
  top (points t) = 0 ->
  Js.within newY 0 (snapThreshold cfg) = true ->
  let r := snapAgainst cfg cp w h newX newY (t :: ts) in
  snappedY r = Some true /\ y r = 0.
Proof.
  intros Hl Hw. unfold snapAgainst.
  set (xl := xLoop cfg cp w h newX newY (t :: ts) (start newX [])).
  destruct (yLoop_canvas_top cfg cp w h newX newY (coord xl)
              (activeGuides xl) t ts Hl Hw) as [Hs Hc].
  cbn zeta in *. cbn [snappedY y]. rewrite Hs, Hc, andb_false_r.
  now split.
Qed.

(** C5 (amended).  On every [calculateSnap] call with snapping enabled
    and the canvas initialised, the snap targets are the canvas box
    (always, and first) and, when [CONFIG.snapToElements] is on, exactly
    the canvas descendants that carry one of the classes
    [design-element], [brochure-element], [template-element], have a
    non-null [offsetParent] and are not the dragged element.  Being
    first, the canvas wins whenever the candidate's left (top) edge is
    within the threshold of the canvas's left (top) edge. *)
Theorem calculateSnap_targets st el newX newY c :
  isEnabled st = true -> canvas st = Some c ->
  let ts := snapTargets (setActive st (Some (nodeId el))) c in
  let r := fst (calculateSnap st el newX newY) in
  r = snapAgainst (CONFIG st) (getCanvasSnapPoints c)
        (rwidth (boundingRect el)) (rheight (boundingRect el))
        newX newY ts /\
  ts !! 0%nat = Some (canvasAsTarget c) /\
  (forall t, t ∈ ts <->
     t = canvasAsTarget c \/
     (snapToElements (CONFIG st) = true /\
      exists e, e ∈ descendants c /\ matchesSelector e = true /\
                hasOffsetParent e = true /\ nodeId e <> nodeId el /\
                t = elementAsTarget c e)) /\
  (Js.within newX 0 (snapThreshold (CONFIG st)) = true ->
     snappedX r = Some true /\ x r = 0) /\
  (Js.within newY 0 (snapThreshold (CONFIG st)) = true ->
     snappedY r = Some true /\ y r = 0).
Proof.
  intros He Hc. cbn zeta.
  rewrite (calculateSnap_ready st el newX newY c He Hc). cbn [fst].
  repeat apply conj; try reflexivity.
  - intros t.
    apply (snapTargets_spec (setActive st (Some (nodeId el))) c
             (nodeId el) t Hc eq_refl).
  - intros Hw. now apply snapAgainst_canvas_left.
  - intros Hw. now apply snapAgainst_canvas_top.
Qed.

Lemma calculateSnap_targets_witness :
  isEnabled ready = true /\ canvas ready = Some scene /\
  let ts := snapTargets (setActive ready (Some 1%nat)) scene in
  let r := fst (calculateSnap ready dragged 3 50) in
  ts = [canvasAsTarget scene; elementAsTarget scene sibling] /\
  (Js.within 3 0 8 = true -> snappedX r = Some true /\ x r = 0).
Proof.
  split; [reflexivity|]. split; [reflexivity|]. cbn zeta.
  split; [reflexivity|].
  pose proof (calculateSnap_targets ready dragged 3 50 scene
                eq_refl eq_refl) as (_ & _ & _ & HX & _).
  exact HX.
Defined.

(** C5 as stated fails on two config gates.  With smart guides switched
    off the initialised canvas is not consulted: a candidate 3 px from
    its left edge comes back unsnapped.  With [snapToElements] off the
    visible, non-active sibling is not a target: a candidate 3 px from
    the sibling's left edge comes back unsnapped, although it snaps
    under the default configuration. *)
Lemma targets_depend_on_config :
  (let st := setEnabled ready false in
   let r := fst (calculateSnap st dragged 3 50) in
   canvas st = Some scene /\ Js.within 3 0 8 = true /\
   x r = 3 /\ rguides r = []) /\
  (let st := setConfig ready (withElements false) in
   let st' := snd (calculateSnap st dragged 297 100) in
   let r := fst (calculateSnap st dragged 297 100) in
   isEnabled st = true /\ canvas st = Some scene /\
   sibling ∈ descendants scene /\ hasOffsetParent sibling = true /\
   activeElement st' <> Some (nodeId sibling) /\
   snapTargets st' scene = [canvasAsTarget scene] /\
   x r = 297 /\ rguides r = [] /\
   x (fst (calculateSnap ready dragged 297 100)) = 300).
Proof.
  cbn zeta. split.
  - repeat apply conj; reflexivity.
  - repeat apply conj; try reflexivity.
    + unfold scene. cbn. set_solver.
    + intros H. discriminate H.
Qed.

End SnapFacts.

(* ===================================================================== *)
(** * Properties of element creation and of the colour schemes *)
(* ===================================================================== *)

Section ElementFacts.

Import Editor ElementsLibrary ColorSchemes.
Local Open Scope Q_scope.

Context {S : Type} `{ElementDrag S}.

Lemma createShapeElement_fresh shapeType options (s : S) :
  let r := createShapeElement shapeType options s in
  freshlyCreated s (fst r) (snd r) /\ elementType (fst r) = "shape".
Proof.
  unfold createShapeElement, freshlyCreated.
  destruct (createElementId s) as [newId s']. cbn. tauto.
Qed.

Lemma createQRCodeElement_fresh url options (s : S) :
  let r := createQRCodeElement url options s in
  freshlyCreated s (fst r) (snd r) /\ elementType (fst r) = "qrcode".
Proof.
  unfold createQRCodeElement, freshlyCreated.
  destruct (createElementId s) as [newId s']. cbn. tauto.
Qed.

Lemma createIconElement_known env iconType iconDef options (s : S) :
  Js.objOr (ICONS_LIBRARY env) ∅ !! iconType = Some iconDef ->
  exists e,
    createIconElement env iconType options s =
      (Some e, snd (createElementId s), []) /\
    freshlyCreated s e (snd (createElementId s)) /\
    elementType e = "icon".
Proof.
  intros Hdef. unfold createIconElement, freshlyCreated. rewrite Hdef.
  destruct (createElementId s) as [newId s']. cbn.
  eexists. split; [reflexivity|]. cbn. tauto.
Qed.


(** C9.  Every element the constructors return is unlocked, visible,
    not rotated, and carries the id produced by the single call of
    [ElementDrag.createElementId] made for it; [createIconElement]
    returns such an element whenever the icon type is in the icon
    library. *)
Theorem constructors_unlocked_visible env shapeType iconType iconDef url
    options (s : S) :
  Js.objOr (ICONS_LIBRARY env) ∅ !! iconType = Some iconDef ->
  (let r := createShapeElement shapeType options s in
   freshlyCreated s (fst r) (snd r) /\ elementType (fst r) = "shape") /\
  (exists e,
     createIconElement env iconType options s =
       (Some e, snd (createElementId s), []) /\
     freshlyCreated s e (snd (createElementId s)) /\
     elementType e = "icon") /\
  (let r := createQRCodeElement url options s in
   freshlyCreated s (fst r) (snd r) /\ elementType (fst r) = "qrcode").
Proof.
  intros Hdef. split; [apply createShapeElement_fresh|].
  split; [now apply createIconElement_known with iconDef|].
  apply createQRCodeElement_fresh.
Qed.

(** ** Rejected operations *)

Lemma showToast_logs env message type (w : World) :
  showToast env message type w =
    emit w [if hasShowToast env then Toast message type
            else ConsoleLog ("[" +:+ type +:+ "] " +:+ message)].
Proof. unfold showToast. now destruct (hasShowToast env). Qed.

Lemma emit_onlyLogged (w : World) (s : S) evs :
  onlyLogged w s evs (emit w evs, s).
Proof. unfold onlyLogged. cbn. tauto. Qed.

(** C6.  With no page selected ([EditorState.currentPage] null, or any
    falsy id) [addElementToCurrentPage] and [addQRCodeToCurrentPage]
    only issue the notice "Please select a page first": the editor's
    toast when the global [showToast] is defined, a console line
    otherwise.  The editor state (elements, history, dirty flag,
    selection), the DOM and the id supply are left as they were: no
    element is created and no snapshot is appended. *)
Theorem addElementToCurrentPage_without_page env elementType shapeType
    iconType (w : World) (s : S) :
  Js.strTruthy (currentPage (editor w)) = false ->
  let notice :=
    if hasShowToast env then Toast "Please select a page first" "warning"
    else ConsoleLog "[warning] Please select a page first" in
  onlyLogged w s [notice]
    (addElementToCurrentPage env elementType shapeType iconType w s) /\
  onlyLogged w s [notice] (addQRCodeToCurrentPage env w s).
Proof.
  intros Hpage. cbn zeta.
  unfold addQRCodeToCurrentPage, addElementToCurrentPage.
  rewrite Hpage. cbn [negb]. rewrite showToast_logs.
  destruct (hasShowToast env); split; apply emit_onlyLogged.
Qed.




End ElementFacts.

Section ElementExamples.

Import Editor ElementsLibrary ColorSchemes.
Local Open Scope Q_scope.

Lemma constructors_unlocked_visible_witness :
  Js.objOr (ICONS_LIBRARY env0) ∅ !! "bed"
    = Some (mkIconDef (Some "0 0 24 24") (Some "M2 4v16")) /\
  exists e,
    createIconElement env0 "bed" noOptions 7%nat = (Some e, 8%nat, []) /\
    freshlyCreated 7%nat e 8%nat /\ elementType e = "icon".
Proof.
  split; [reflexivity|].
  exact (proj1 (proj2 (constructors_unlocked_visible env0 "circle" "bed"
                         (mkIconDef (Some "0 0 24 24") (Some "M2 4v16"))
                         None noOptions 7%nat eq_refl))).
Defined.

Lemma addElementToCurrentPage_without_page_witness :
  Js.strTruthy (currentPage (editor world0)) = false /\
  onlyLogged world0 0%nat [Toast "Please select a page first" "warning"]
    (addElementToCurrentPage env0 "shape" "circle" "" world0 0%nat).
Proof.
  split; [reflexivity|].
  exact (proj1 (addElementToCurrentPage_without_page env0 "shape" "circle"
                  "" world0 0%nat eq_refl)).
Defined.


(** On the accepted paths the same functions do change the editor: a
    shape added to the selected page draws one id, records one snapshot
    and lands in [EditorState.elements]; a known scheme recolours the
    page, sets the dirty flag and records one snapshot. *)
Example add_shape_to_selected_page :
  let r := addElementToCurrentPage env0 "shape" "circle" "" world1 7%nat in
  snd r = 8%nat /\
  length (history (editor (fst r))) = 1%nat /\
  historyIndex (editor (fst r)) = 0%Z /\
  (exists e, elements (editor (fst r)) !! "p1" = Some [e] /\
             id e = "element-7" /\ locked e = false /\ visible e = true /\
             px (position e) == 1123 / 2 - 50) /\
  List.last (log (fst r)) (ConsoleLog "") = Toast "Added shape" "success".
Proof.
  cbn zeta. split; [reflexivity|]. split; [reflexivity|].
  split; [reflexivity|]. split; [|reflexivity].
  eexists. split; [vm_compute; reflexivity|].
  repeat split; reflexivity.
Qed.

Example apply_known_scheme :
  let r := applyColorScheme env0 "blackGold" false world1 None in
  snd r = Some "blackGold" /\
  isDirty (editor (fst r)) = true /\
  length (history (editor (fst r))) = 1%nat /\
  List.map pageBackground (pages (dom (fst r))) = ["#0d0d0d"] /\
  List.last (log (fst r)) (ConsoleLog "")
    = ConsoleLog "History saved: apply color scheme".
Proof. cbn zeta. repeat split; vm_compute; reflexivity. Qed.

End ElementExamples.


(* ===================================================================== *)
(** * Properties of the export *)
(* ===================================================================== *)

Section ExportFacts.

Import MultiFormatExport.
Local Open Scope Q_scope.

(** ** Highlights *)

Lemma existsb_eqb_elem_of (v : string) (l : list string) :
  existsb (String.eqb v) l = true <-> v ∈ l.
Proof.
  rewrite existsb_exists, list_elem_of_In. split.
  - intros (y & Hy & Heq). apply String.eqb_eq in Heq. now subst.
  - intros Hin. exists v. split; [exact Hin | apply String.eqb_refl].
Qed.

Lemma setOf_NoDup (l seen : list string) :
  NoDup seen -> NoDup (setOf seen l).
Proof.
  revert seen. induction l as [|v l IH]; intros seen Hseen; cbn.
  - exact Hseen.
  - destruct (existsb (String.eqb v) seen) eqn:E.
    + now apply IH.
    + apply IH. apply NoDup_app. split; [exact Hseen|].
      split; [|apply NoDup_singleton].
      intros y Hy Hv. apply list_elem_of_singleton in Hv. subst y.
      apply existsb_eqb_elem_of in Hy. congruence.
Qed.

Lemma setOf_elem_of (l seen : list string) (v : string) :
  v ∈ setOf seen l <-> v ∈ seen \/ v ∈ l.
Proof.
  revert seen. induction l as [|u l IH]; intros seen; cbn.
  - rewrite elem_of_nil. tauto.
  - destruct (existsb (String.eqb u) seen) eqn:E.
    + rewrite IH, elem_of_cons. apply existsb_eqb_elem_of in E.
      split; [tauto|]. intros [?|[->|?]]; tauto.
    + rewrite IH, elem_of_app, list_elem_of_singleton, elem_of_cons. tauto.
Qed.

(** C10.  The highlights returned by [extractContentSections] are
    pairwise distinct and at most 8, whatever the pages and content
    blocks contribute; each of them is one of the contributed
    strings. *)
Theorem extractContentSections_highlights (ps : option (list Page)) :
  let hs := highlights (extractContentSections ps) in
  NoDup hs /\ (length hs <= 8)%nat /\
  (forall h, h ∈ hs ->
     h ∈ highlights (fold_left filePage (default [] ps) emptySections)).
Proof.
  cbn zeta. destruct ps as [[|p ps]|]; cbn [extractContentSections].
  - cbn. split; [constructor|]. split; [lia|]. intros h Hh. exact Hh.
  - cbn [highlights setHighlights default].
    set (s := fold_left filePage (p :: ps) emptySections).
    split; [|split].
    + eapply sublist_NoDup; [|apply sublist_take].
      apply setOf_NoDup. constructor.
    + rewrite length_take. lia.
    + intros h Hh. apply elem_of_take in Hh as (i & Hi & _).
      apply list_elem_of_lookup_2 in Hi.
      apply setOf_elem_of in Hi as [Hi|Hi]; [|exact Hi].
      now apply elem_of_nil in Hi.
  - cbn. split; [constructor|]. split; [lia|]. intros h Hh. exact Hh.
Qed.

(** ** Page images *)










(** When a raster is refused the loop's [catch] skips the file and the
    export goes on: here every PNG fails and the endpoint is down, and the
    archive still holds the two JPEGs, the preview and the readme. *)
Example export_survives_failed_rasters :
  option_map imageNames (archive (exportMultipleFormats noPngEnv))
    = Some ["page_1.jpg"; "page_2.jpg"] /\
  option_map (@length Entry) (archive (exportMultipleFormats noPngEnv))
    = Some 4%nat.
Proof. split; vm_compute; reflexivity. Qed.

End ExportFacts.


(* ===================================================================== *)
(** * Further properties of the snap engine and its tools *)
(* ===================================================================== *)

Section SnapToolFacts.

Import SmartGuides SmartGuidesTools.
Local Open Scope Q_scope.

(** ** A snap is a small move *)





(** ** Spacing *)

Lemma gap_facts l1 r1 l2 r2 :
  l1 <= r1 -> l2 <= r2 ->
  let g := Qmax 0 (Qmax l1 l2 - Qmin r1 r2) in
  g == Qmax 0 (Qmax l2 l1 - Qmin r2 r1) /\
  0 <= g /\
  (g == 0 <-> l1 <= r2 /\ l2 <= r1) /\
  (r1 <= l2 -> g == l2 - r1).
Proof.
  intros H1 H2. cbn zeta.
  destruct (Q.max_spec l1 l2) as [[Ha Hb]|[Ha Hb]];
    destruct (Q.max_spec l2 l1) as [[Ha' Hb']|[Ha' Hb']];
    destruct (Q.min_spec r1 r2) as [[Hc Hd]|[Hc Hd]];
    destruct (Q.min_spec r2 r1) as [[Hc' Hd']|[Hc' Hd']];
    set (m := Qmax l1 l2) in *; set (m' := Qmax l2 l1) in *;
    set (n := Qmin r1 r2) in *; set (n' := Qmin r2 r1) in *;
    destruct (Q.max_spec 0 (m - n)) as [[He Hf]|[He Hf]];
    destruct (Q.max_spec 0 (m' - n')) as [[He' Hf']|[He' Hf']];
    set (g := Qmax 0 (m - n)) in *; set (g' := Qmax 0 (m' - n')) in *;
    clearbody g g' m m' n n';
    repeat split; intros; try lra.
Qed.

(** X2.  [getSpacing] is symmetric in its two elements and never
    negative; on each axis it is zero exactly when the two boxes overlap
    or touch there, and it is the distance between the facing edges when
    the second box lies beyond the first. *)
Theorem getSpacing_is_the_gap e1 e2 :
  let r1 := boundingRect e1 in
  let r2 := boundingRect e2 in
  0 <= rwidth r1 -> 0 <= rwidth r2 ->
  0 <= rheight r1 -> 0 <= rheight r2 ->
  let s := getSpacing e1 e2 in
  horizontalGap s == horizontalGap (getSpacing e2 e1) /\
  verticalGap s == verticalGap (getSpacing e2 e1) /\
  0 <= horizontalGap s /\ 0 <= verticalGap s /\
  (horizontalGap s == 0 <->
     rleft r1 <= rright r2 /\ rleft r2 <= rright r1) /\
  (verticalGap s == 0 <->
     rtop r1 <= rbottom r2 /\ rtop r2 <= rbottom r1) /\
  (rright r1 <= rleft r2 -> horizontalGap s == rleft r2 - rright r1) /\
  (rbottom r1 <= rtop r2 -> verticalGap s == rtop r2 - rbottom r1).
Proof.
  cbn zeta. intros Hw1 Hw2 Hh1 Hh2.
  assert (Hx1 : rleft (boundingRect e1) <= rright (boundingRect e1))
    by (unfold rright; lra).
  assert (Hx2 : rleft (boundingRect e2) <= rright (boundingRect e2))
    by (unfold rright; lra).
  assert (Hy1 : rtop (boundingRect e1) <= rbottom (boundingRect e1))
    by (unfold rbottom; lra).
  assert (Hy2 : rtop (boundingRect e2) <= rbottom (boundingRect e2))
    by (unfold rbottom; lra).
  destruct (gap_facts _ _ _ _ Hx1 Hx2) as (A1 & A2 & A3 & A4).
  destruct (gap_facts _ _ _ _ Hy1 Hy2) as (B1 & B2 & B3 & B4).
  unfold getSpacing. cbn [horizontalGap verticalGap].
  repeat apply conj; first [assumption | apply A3 | apply B3].
Qed.

Lemma getSpacing_is_the_gap_witness :
  0 <= 40 /\ 0 <= 100 /\
  horizontalGap (getSpacing (node boxA) (node boxC)) == 410 - (110 + 40) /\
  verticalGap (getSpacing (node boxA) (node boxC)) == 0.
Proof.
  split; [discriminate|]. split; [discriminate|].
  pose proof (getSpacing_is_the_gap (node boxA) (node boxC)) as H.
  cbn zeta in H.
  destruct H as (_ & _ & _ & _ & _ & HV & HH & _);
    try (cbn; discriminate).
  split.
  - apply HH. cbn. discriminate.
  - apply HV. cbn. split; discriminate.
Defined.

(** ** Alignment *)

Lemma numOr_zero v : Js.numOr (Some v) 0 == v.
Proof.
  unfold Js.numOr. destruct (Qeq_bool v 0) eqn:E; [|reflexivity].
  apply Qeq_bool_iff in E. now rewrite E.
Qed.

(** X3.  On an initialised canvas [alignToCanvas] puts the element where
    its name says: flush with the canvas edge for left, right, top and
    bottom, centred on the canvas axis for center-h and center-v, both
    for center; the axis an alignment does not name keeps its inline
    coordinate.  The returned position is the inline position it
    wrote. *)
Theorem alignToCanvas_places st c e alignment :
  canvas st = Some c ->
  let cw := rwidth (canvasRect c) in
  let ch := rheight (canvasRect c) in
  let w := rwidth (boundingRect (node e)) in
  let h := rheight (boundingRect (node e)) in
  exists e' p,
    alignToCanvas st (Some e) alignment = Some (e', p) /\
    node e' = node e /\
    styleLeft e' = Some (posX p) /\ styleTop e' = Some (posY p) /\
    (alignment = "left" -> posX p == 0) /\
    (alignment = "right" -> posX p + w == cw) /\
    (alignment = "center-h" \/ alignment = "center" ->
       posX p + w / 2 == cw / 2) /\
    (alignment = "top" -> posY p == 0) /\
    (alignment = "bottom" -> posY p + h == ch) /\
    (alignment = "center-v" \/ alignment = "center" ->
       posY p + h / 2 == ch / 2) /\
    (alignment = "left" \/ alignment = "right" \/ alignment = "center-h" ->
       posY p == Js.numOr (styleTop e) 0) /\
    (alignment = "top" \/ alignment = "bottom" \/ alignment = "center-v" ->
       posX p == Js.numOr (styleLeft e) 0).
Proof.
  intros Hc. cbn zeta. unfold alignToCanvas. rewrite Hc.
  repeat (match goal with
          | |- context [String.eqb alignment ?k] =>
              destruct (String.eqb_spec alignment k) as [->|?]
          end; cbn -[Qplus Qminus Qdiv Qmult]);
    do 2 eexists; (split; [reflexivity|]);
    cbn [node styleLeft styleTop posX posY];
    repeat apply conj; try reflexivity;
    intros; repeat match goal with
                   | Hor : _ \/ _ |- _ => destruct Hor
                   end;
    try discriminate; try congruence; try reflexivity; try field.
Qed.

Lemma alignToCanvas_places_witness :
  canvas stage = Some {| canvasRect := mkRect 10 10 800 600;
                         descendants := [node boxA; node boxB; node boxC] |}
  /\ exists e' p,
       alignToCanvas stage (Some boxA) "center" = Some (e', p) /\
       posX p + 40 / 2 == 800 / 2 /\ posY p + 40 / 2 == 600 / 2.
Proof.
  split; [reflexivity|].
  destruct (alignToCanvas_places stage _ boxA "center" eq_refl)
    as (e' & p & Heq & _ & _ & _ & _ & _ & HX & _ & _ & HY & _).
  exists e', p. split; [exact Heq|]. split.
  - apply HX. now right.
  - apply HY. now right.
Defined.

(** X4.  Aligning twice is the same as aligning once, and center is
    center-h followed by center-v, in either order: each alignment
    depends only on the sizes of the canvas and the element and on the
    coordinate of the axis it leaves alone. *)
Theorem alignToCanvas_composes st c e a :
  canvas st = Some c ->
  samePlace (alignAll st e [a; a]) (alignAll st e [a]) /\
  samePlace (alignAll st e ["center-h"; "center-v"])
            (alignAll st e ["center"]) /\
  samePlace (alignAll st e ["center-v"; "center-h"])
            (alignAll st e ["center"]).
Proof.
  intros Hc. unfold alignAll, alignToCanvas. rewrite Hc.
  cbn [String.eqb Ascii.eqb Bool.eqb node styleLeft styleTop].
  split; [|split].
  - repeat (match goal with
            | |- context [String.eqb a ?k] => destruct (String.eqb a k)
            end);
      unfold samePlace, inlineX, inlineY; cbn [node styleLeft styleTop];
      rewrite ?numOr_zero; repeat split; reflexivity.
  - unfold samePlace, inlineX, inlineY; cbn [node styleLeft styleTop];
      rewrite ?numOr_zero; repeat split; reflexivity.
  - unfold samePlace, inlineX, inlineY; cbn [node styleLeft styleTop];
      rewrite ?numOr_zero; repeat split; reflexivity.
Qed.

Lemma alignToCanvas_composes_witness :
  canvas stage <> None /\
  samePlace (alignAll stage boxA ["right"; "right"])
            (alignAll stage boxA ["right"]) /\
  samePlace (alignAll stage boxA ["center-h"; "center-v"])
            (alignAll stage boxA ["center"]).
Proof.
  split; [discriminate|].
  destruct (alignToCanvas_composes stage _ boxA "right" eq_refl)
    as (H1 & H2 & _).
  split; [exact H1 | exact H2].
Defined.

(** ** Switching the guides off *)

(** X5.  [renderGuides] replaces what is drawn, it never adds to it; and
    once [setEnabled(false)] has run, no guide line is left in the
    overlay, the active element is forgotten, a later [renderGuides]
    draws nothing, and [calculateSnap] hands the candidate back with no
    guides and without touching the module state. *)
Theorem disabled_guides_are_gone st el newX newY gs gs' :
  let off := setEnabled st false in
  renderGuides (renderGuides st gs) gs' = renderGuides st gs' /\
  guidesContainer off = option_map (fun _ => []) (guidesContainer st) /\
  activeElement off = None /\
  guidesContainer (renderGuides off gs) = guidesContainer off /\
  calculateSnap off el newX newY =
    ({| x := newX; y := newY; rguides := [];
        snappedX := None; snappedY := None |}, off).
Proof.
  cbn zeta. repeat apply conj.
  - unfold renderGuides.
    destruct (guidesContainer st) eqn:E; cbn; rewrite ?E; reflexivity.
  - reflexivity.
  - reflexivity.
  - unfold renderGuides, setEnabled, clearGuides.
    cbn [guidesContainer isEnabled].
    destruct (guidesContainer st); cbn; [destruct gs|]; reflexivity.
  - reflexivity.
Qed.

End SnapToolFacts.

(** ** Distribution *)

Section DistributeFacts.

Import SmartGuides SmartGuidesTools.
Local Open Scope Q_scope.

Variables start size : Styled -> Q.
Variable place : Styled -> Q -> Styled.
Variable inline : Styled -> option Q.
Hypothesis size_place : forall e v, size (place e v) = size e.
Hypothesis start_place : forall e v, start (place e v) = start e.
Hypothesis inline_place : forall e v, inline (place e v) = Some v.















End DistributeFacts.

Section SortFacts.

Import SmartGuides SmartGuidesTools.
Local Open Scope Q_scope.

Variable key : Styled -> Q.







End SortFacts.

Section DistributeTheorem.

Import SmartGuides SmartGuidesTools.
Local Open Scope Q_scope.



End DistributeTheorem.

(* ===================================================================== *)
(** * Properties of the undo history *)
(* ===================================================================== *)

Section HistoryFacts.

Import Editor EditorTools.

Lemma saveToHistory_editor env name w :
  isUndoRedo (editor w) = false ->
  let e := editor w in
  let entry := {| action := name; state := captureEditorState w;
                  timestamp := dateNow env |} in
  let kept := firstn (Z.to_nat (historyIndex e + 1)) (history e) in
  historyOk e ->
  editor (saveToHistory env name w) =
    if (maxHistorySize e <? historyIndex e + 2)%Z
    then withHistory e (List.tl (kept ++ [entry])) (historyIndex e)
    else withHistory e (kept ++ [entry]) (historyIndex e + 1)%Z.
Proof.
  intros Hundo. cbn zeta. intros [[Hlo Hhi] Hmax].
  unfold saveToHistory. rewrite Hundo. cbn [editor emit setEditor].
  set (e := editor w) in *.
  set (entry := {| action := name; state := captureEditorState w;
                   timestamp := dateNow env |}).
  assert (Hkept :
            (if (historyIndex e <? Z.of_nat (length (history e)) - 1)%Z
             then firstn (Z.to_nat (historyIndex e + 1)) (history e)
             else history e)
            = firstn (Z.to_nat (historyIndex e + 1)) (history e)).
  { destruct (Z.ltb_spec (historyIndex e)
                (Z.of_nat (length (history e)) - 1)); [reflexivity|].
    rewrite firstn_all2; [reflexivity|]. lia. }
  rewrite Hkept.
  assert (Hlen : Z.of_nat (length (firstn (Z.to_nat (historyIndex e + 1))
                                     (history e) ++ [entry]))
                 = (historyIndex e + 2)%Z).
  { rewrite length_app, length_take. cbn [length]. lia. }
  rewrite Hlen. reflexivity.
Qed.



End HistoryFacts.

(* ===================================================================== *)
(** * Properties of adding elements *)
(* ===================================================================== *)

Section PlacementFacts.

Import Editor EditorTools ElementsLibrary ElementsLibraryTools.
Local Open Scope Q_scope.

Context {S : Type} `{ElementDrag S}.

Lemma emit_nothing (w : World) : emit w [] = w.
Proof. destruct w. unfold emit. cbn. now rewrite app_nil_r. Qed.

Lemma getPropertyUrl_nonempty (e : EditorState) : getPropertyUrl e <> "".
Proof.
  unfold getPropertyUrl. destruct (sessionProperty e) as [p|]; [|discriminate].
  destruct (propertyUrl p) as [u|]; cbn.
  - destruct (String.eqb_spec u ""); cbn; [|assumption].
    destruct (propertyId p) as [i|]; cbn; [|discriminate].
    destruct (String.eqb u ""), (String.eqb i ""); cbn; discriminate.
  - destruct (propertyId p) as [i|]; cbn; [|discriminate].
    destruct (String.eqb i ""); cbn; discriminate.
Qed.

Lemma addElementAtPosition_shape env pageId shapeType iconType x y
    (w : World) (s : S) :
  let made := createShapeElement shapeType
                (placed x y (getNextZIndex w pageId)) s in
  addElementAtPosition env pageId "shape" shapeType iconType x y w s =
    (inserted env "shape" pageId (fst made) w, snd made).
Proof.
  cbn zeta. unfold addElementAtPosition, inserted.
  cbn [String.eqb Ascii.eqb Bool.eqb].
  destruct (createShapeElement _ _ s) as [d s1]. cbn [fst snd].
  now rewrite emit_nothing.
Qed.

Lemma addElementAtPosition_qrcode env pageId shapeType iconType x y
    (w : World) (s : S) :
  let made := createQRCodeElement (Some (getPropertyUrl (editor w)))
                (placed x y (getNextZIndex w pageId)) s in
  addElementAtPosition env pageId "qrcode" shapeType iconType x y w s =
    (inserted env "qrcode" pageId (fst made) w, snd made).
Proof.
  cbn zeta. unfold addElementAtPosition, inserted.
  cbn [String.eqb Ascii.eqb Bool.eqb].
  destruct (createQRCodeElement _ _ s) as [d s1]. cbn [fst snd].
  now rewrite emit_nothing.
Qed.

Lemma addElementAtPosition_icon env pageId shapeType iconType iconDef x y
    (w : World) (s : S) :
  Js.objOr (ICONS_LIBRARY env) ∅ !! iconType = Some iconDef ->
  exists d,
    createIconElement env iconType (placed x y (getNextZIndex w pageId)) s
      = (Some d, snd (createElementId s), []) /\
    addElementAtPosition env pageId "icon" shapeType iconType x y w s =
      (inserted env "icon" pageId d w, snd (createElementId s)).
Proof.
  intros Hdef.
  destruct (createIconElement_known env iconType iconDef
              (placed x y (getNextZIndex w pageId)) s Hdef)
    as (d & Hd & _).
  exists d. split; [exact Hd|].
  unfold addElementAtPosition, inserted.
  cbn [String.eqb Ascii.eqb Bool.eqb]. rewrite Hd.
  now rewrite emit_nothing.
Qed.

(** X8.  A QR code added through [addElementAtPosition] always encodes
    a link: the element handed to [ElementDrag.addElementToPage] has as
    its [url] the result of [getPropertyUrl], which is never the empty
    string (the property's own url, else the property page built from
    its id, else the site root), although [createQRCodeElement] by
    itself falls back to an empty url.  The element is black on white,
    100 by 100, placed at the requested position, and is freshly
    created from the one id drawn. *)
Theorem qrcode_always_links_somewhere env pageId shapeType iconType x y
    (w : World) (s : S) :
  let r := addElementAtPosition env pageId "qrcode" shapeType iconType
             x y w s in
  exists d,
    fst r = inserted env "qrcode" pageId d w /\
    freshlyCreated s d (snd r) /\
    payload d = QRCodeData (getPropertyUrl (editor w)) "#000000" "#FFFFFF" /\
    getPropertyUrl (editor w) <> "" /\
    position d = mkPoint x y /\ size d = mkSize 100 100.
Proof.
  cbn zeta. rewrite addElementAtPosition_qrcode.
  pose proof (getPropertyUrl_nonempty (editor w)) as Hurl.
  exists (fst (createQRCodeElement (Some (getPropertyUrl (editor w)))
                 (placed x y (getNextZIndex w pageId)) s)).
  cbn [fst snd]. split; [reflexivity|].
  split; [apply createQRCodeElement_fresh|].
  unfold createQRCodeElement. destruct (createElementId s) as [newId s'].
  cbn. repeat apply conj; try reflexivity; try exact Hurl.
  destruct (String.eqb_spec (getPropertyUrl (editor w)) "");
    [contradiction | reflexivity].
Qed.

(** X9.  [addElementAtPosition] with an element type other than
    'shape', 'icon' and 'qrcode' is a silent no-op: no id is drawn, no
    snapshot is taken, nothing is inserted, and nothing is logged or
    toasted. *)
Theorem addElementAtPosition_unknown_type env pageId elementType
    shapeType iconType x y (w : World) (s : S) :
  knownType elementType = false ->
  addElementAtPosition env pageId elementType shapeType iconType x y w s
    = (w, s).
Proof.
  unfold knownType. intros Hk.
  apply orb_false_elim in Hk as [Hk Hq].
  apply orb_false_elim in Hk as [Hs Hi].
  unfold addElementAtPosition. rewrite Hs, Hi, Hq.
  now rewrite emit_nothing.
Qed.

(** X10.  [addElementToCurrentPage] puts shapes and QR codes in the
    middle of the selected page: when the selected page exists in the
    document, the element handed to [ElementDrag.addElementToPage] has
    the centre of its box at the centre of the page.  The offset of 50
    the function subtracts is half the side of these 100 by 100
    elements. *)
Theorem addElementToCurrentPage_centres env elementType shapeType iconType
    pid page (w : World) (s : S) :
  currentPage (editor w) = Some pid -> pid <> "" ->
  queryPage (dom w) pid = Some page ->
  elementType = "shape" \/ elementType = "qrcode" ->
  let r := addElementToCurrentPage env elementType shapeType iconType w s in
  exists d,
    fst r = inserted env elementType pid d w /\
    freshlyCreated s d (snd r) /\
    centreX d == offsetWidth page / 2 /\
    centreY d == offsetHeight page / 2.
Proof.
  intros Hcur Hpid Hpage Hty. cbn zeta.
  unfold addElementToCurrentPage. rewrite Hcur. cbn [Js.strTruthy Js.strOr].
  destruct (String.eqb_spec pid ""); [contradiction|]. cbn [negb].
  rewrite Hpage.
  destruct Hty as [-> | ->].
  - rewrite addElementAtPosition_shape.
    eexists. split; [reflexivity|]. cbn [fst snd].
    split; [apply createShapeElement_fresh|].
    unfold createShapeElement, centreX, centreY.
    destruct (createElementId s) as [newId s']. cbn. split; field.
  - rewrite addElementAtPosition_qrcode.
    eexists. split; [reflexivity|]. cbn [fst snd].
    split; [apply createQRCodeElement_fresh|].
    unfold createQRCodeElement, centreX, centreY.
    destruct (createElementId s) as [newId s']. cbn. split; field.
Qed.

(** X11.  Icons are not centred by [addElementToCurrentPage]: the same
    offset of 50 is used for them although an icon is 48 by 48, so the
    centre of an added icon lies 26 units left of and above the centre
    of the page. *)
Theorem addElementToCurrentPage_icon_off_centre env shapeType iconType
    iconDef pid page (w : World) (s : S) :
  currentPage (editor w) = Some pid -> pid <> "" ->
  queryPage (dom w) pid = Some page ->
  Js.objOr (ICONS_LIBRARY env) ∅ !! iconType = Some iconDef ->
  let r := addElementToCurrentPage env "icon" shapeType iconType w s in
  exists d,
    fst r = inserted env "icon" pid d w /\
    size d = mkSize 48 48 /\
    centreX d == offsetWidth page / 2 - 26 /\
    centreY d == offsetHeight page / 2 - 26.
Proof.
  intros Hcur Hpid Hpage Hdef. cbn zeta.
  unfold addElementToCurrentPage. rewrite Hcur. cbn [Js.strTruthy Js.strOr].
  destruct (String.eqb_spec pid ""); [contradiction|]. cbn [negb].
  rewrite Hpage.
  destruct (addElementAtPosition_icon env pid shapeType iconType iconDef
              (offsetWidth page / 2 - 50) (offsetHeight page / 2 - 50)
              w s Hdef) as (d & Hd & ->).
  exists d. split; [reflexivity|].
  unfold createIconElement in Hd. rewrite Hdef in Hd.
  destruct (createElementId s) as [newId s']. cbn in Hd.
  injection Hd as <-. unfold centreX, centreY. cbn.
  repeat apply conj; [reflexivity | field | field].
Qed.

(** X12.  [addElementToCurrentPage] on a selected page that has no node
    in the document does nothing at all: no toast, no log line, no id
    drawn, no snapshot. *)
Theorem addElementToCurrentPage_page_not_in_document env elementType
    shapeType iconType pid (w : World) (s : S) :
  currentPage (editor w) = Some pid -> pid <> "" ->
  queryPage (dom w) pid = None ->
  addElementToCurrentPage env elementType shapeType iconType w s = (w, s).
Proof.
  intros Hcur Hpid Hpage.
  unfold addElementToCurrentPage. rewrite Hcur. cbn [Js.strTruthy Js.strOr].
  destruct (String.eqb_spec pid ""); [contradiction|]. cbn [negb].
  now rewrite Hpage.
Qed.

(** X13.  The snapshot [addElementAtPosition] records is taken before
    the element is inserted.  With the editor's [saveToHistory]
    available, outside an undo/redo, on a consistent history with room
    for at least one entry, and with an [ElementDrag] whose
    [addElementToPage] does not touch the history: after adding a shape
    the newest history entry is named 'add element', the index points at
    it, and the elements it holds are those of the editor before the
    call. *)
Theorem add_element_snapshot_predates_insertion env pageId shapeType
    iconType x y (w : World) (s : S) :
  (forall d p v, history (editor (addElementToPage d p v))
                 = history (editor v)) ->
  (forall d p v, historyIndex (editor (addElementToPage d p v))
                 = historyIndex (editor v)) ->
  hasSaveToHistory env = true ->
  isUndoRedo (editor w) = false ->
  historyOk (editor w) -> (1 <= maxHistorySize (editor w))%Z ->
  let r := addElementAtPosition env pageId "shape" shapeType iconType
             x y w s in
  exists entry,
    last (history (editor (fst r))) = Some entry /\
    history (editor (fst r))
      !! Z.to_nat (historyIndex (editor (fst r))) = Some entry /\
    action entry = "add element" /\
    snapElements (state entry) = elements (editor w).
Proof.
  intros Hhist Hidx Hsave Hundo Hok Hmax. cbn zeta.
  rewrite addElementAtPosition_shape. cbn [fst].
  unfold inserted. rewrite showToast_logs. cbn [emit editor].
  rewrite Hhist, Hidx. unfold saveToHistoryIfDefined. rewrite Hsave.
  pose proof (saveToHistory_editor env "add element" w Hundo Hok) as He.
  cbn zeta in He. rewrite He. clear He.
  destruct Hok as [[Hlo Hhi] Hlen].
  set (entry := {| action := "add element"; state := captureEditorState w;
                   timestamp := dateNow env |}).
  set (kept := firstn (Z.to_nat (historyIndex (editor w) + 1))
                 (history (editor w))).
  assert (Hkept : Z.of_nat (length kept) = (historyIndex (editor w) + 1)%Z)
    by (unfold kept; rewrite length_take; lia).
  exists entry.
  destruct (Z.ltb_spec (maxHistorySize (editor w))
              (historyIndex (editor w) + 2)) as [Hfull|Hroom].
  - cbn [history historyIndex withHistory].
    destruct kept as [|h t] eqn:Ek.
    + cbn [length] in Hkept. lia.
    + cbn [app List.tl]. cbn [length] in Hkept.
      repeat apply conj; try reflexivity.
      * apply last_snoc.
      * rewrite lookup_app_r by lia.
        replace (Z.to_nat (historyIndex (editor w)) - length t)%nat
          with 0%nat by lia. reflexivity.
  - cbn [history historyIndex withHistory].
    repeat apply conj; try reflexivity.
    + apply last_snoc.
    + rewrite lookup_app_r by lia.
      replace (Z.to_nat (historyIndex (editor w) + 1) - length kept)%nat
        with 0%nat by lia. reflexivity.
Qed.

End PlacementFacts.

Section PlacementExamples.

Import Editor EditorTools ElementsLibrary ElementsLibraryTools.
Local Open Scope Q_scope.

Lemma addElementAtPosition_unknown_type_witness :
  knownType "text" = false /\
  addElementAtPosition env0 "p1" "text" "" "" 10 20 world1 0%nat
    = (world1, 0%nat).
Proof.
  split; [reflexivity|].
  exact (addElementAtPosition_unknown_type env0 "p1" "text" "" "" 10 20
           world1 0%nat eq_refl).
Defined.

Lemma addElementToCurrentPage_centres_witness :
  queryPage (dom world1) "p1" = Some page1 /\
  exists d,
    fst (addElementToCurrentPage env0 "shape" "circle" "" world1 0%nat)
      = inserted env0 "shape" "p1" d world1 /\
    centreX d == 1123 / 2 /\ centreY d == 794 / 2.
Proof.
  split; [reflexivity|].
  destruct (addElementToCurrentPage_centres env0 "shape" "circle" "" "p1"
              page1 world1 0%nat eq_refl ltac:(discriminate) eq_refl
              (or_introl eq_refl))
    as (d & Hd & _ & Hx & Hy).
  exists d. split; [exact Hd|]. split; [exact Hx | exact Hy].
Defined.

Lemma addElementToCurrentPage_icon_off_centre_witness :
  Js.objOr (ICONS_LIBRARY env0) ∅ !! "bed"
    = Some (mkIconDef (Some "0 0 24 24") (Some "M2 4v16")) /\
  exists d,
    fst (addElementToCurrentPage env0 "icon" "" "bed" world1 0%nat)
      = inserted env0 "icon" "p1" d world1 /\
    centreX d == 1123 / 2 - 26.
Proof.
  split; [reflexivity|].
  destruct (addElementToCurrentPage_icon_off_centre env0 "" "bed"
              (mkIconDef (Some "0 0 24 24") (Some "M2 4v16")) "p1"
              page1 world1 0%nat eq_refl ltac:(discriminate) eq_refl
              eq_refl)
    as (d & Hd & _ & Hx & _).
  exists d. split; [exact Hd | exact Hx].
Defined.

Lemma addElementToCurrentPage_page_not_in_document_witness :
  queryPage (dom orphaned) "p9" = None /\
  addElementToCurrentPage env0 "shape" "circle" "" orphaned 0%nat
    = (orphaned, 0%nat).
Proof.
  split; [reflexivity|].
  exact (addElementToCurrentPage_page_not_in_document env0 "shape" "circle"
           "" "p9" orphaned 0%nat eq_refl ltac:(discriminate) eq_refl).
Defined.

Lemma add_element_snapshot_predates_insertion_witness :
  historyOk (editor world1) /\
  exists entry,
    last (history (editor (fst
      (addElementAtPosition env0 "p1" "shape" "circle" "" 10 20
         world1 0%nat)))) = Some entry /\
    snapElements (state entry) = ∅ /\
    elements (editor (fst
      (addElementAtPosition env0 "p1" "shape" "circle" "" 10 20
         world1 0%nat))) !! "p1" <> None.
Proof.
  assert (Hok : historyOk (editor world1))
    by (unfold historyOk; split; vm_compute; intuition discriminate).
  split; [exact Hok|].
  destruct (@add_element_snapshot_predates_insertion nat counterElementDrag
              env0 "p1" "circle" "" 10 20 world1 0%nat
              (fun _ _ v => eq_refl (history (editor v)))
              (fun _ _ v => eq_refl (historyIndex (editor v)))
              eq_refl eq_refl Hok ltac:(vm_compute; discriminate))
    as (entry & Hlast & _ & _ & Hsnap).
  exists entry. split; [exact Hlast|]. split; [exact Hsnap|].
  vm_compute. discriminate.
Defined.

End PlacementExamples.

(* ===================================================================== *)
(** * Properties of the colour schemes *)
(* ===================================================================== *)

Section ColourFacts.

Import Editor EditorTools ColorSchemes ColorSchemesTools.
Local Open Scope Q_scope.

(** ** Recolouring twice *)

Lemma recolorShapeAttr_idem a c :
  recolorShapeAttr (recolorShapeAttr a c) c = recolorShapeAttr a c.
Proof.
  unfold recolorShapeAttr. destruct a as [v|]; [|reflexivity].
  destruct (String.eqb v "none") eqn:E1; [now rewrite E1|].
  destruct (String.eqb v "") eqn:E2; cbn [negb andb];
    [now rewrite E1, E2|].
  destruct (String.eqb v "currentColor") eqn:E3; cbn [negb andb];
    [now rewrite E1, E2, E3|].
  destruct (String.eqb c "none"); [reflexivity|].
  destruct (String.eqb c ""); cbn [negb andb]; [reflexivity|].
  now destruct (String.eqb c "currentColor").
Qed.

Lemma recolorIconAttr_idem a c :
  recolorIconAttr (recolorIconAttr a c) c = recolorIconAttr a c.
Proof.
  unfold recolorIconAttr. destruct a as [v|]; [|reflexivity].
  destruct (String.eqb v "none") eqn:E1; [now rewrite E1|].
  now destruct (String.eqb c "none").
Qed.

Lemma recolorSvg_idem scheme ty n :
  recolorSvg scheme ty (recolorSvg scheme ty n) = recolorSvg scheme ty n.
Proof.
  unfold recolorSvg. destruct (String.eqb ty "shape").
  - cbn. now rewrite !recolorShapeAttr_idem.
  - destruct (String.eqb ty "icon"); [|reflexivity].
    cbn. now rewrite !recolorIconAttr_idem.
Qed.

Lemma recolorBackground_idem scheme page d :
  recolorBackground scheme (recolorPage scheme page)
    (recolorDraggable scheme page d)
  = recolorBackground scheme page d.
Proof.
  unfold recolorBackground at 1. cbn [recolorPage recolorDraggable
    backgroundColor rectTop rectBottom pageTop pageHeight].
  destruct (negb (String.eqb (recolorBackground scheme page d) "")
            && negb (String.eqb (recolorBackground scheme page d)
                       "transparent")
            && negb (String.eqb (recolorBackground scheme page d)
                       "rgba(0, 0, 0, 0)")) eqn:E; [|reflexivity].
  unfold recolorBackground in *.
  destruct (negb (String.eqb (backgroundColor d) "")
            && negb (String.eqb (backgroundColor d) "transparent")
            && negb (String.eqb (backgroundColor d) "rgba(0, 0, 0, 0)"))
    eqn:E0; [reflexivity|].
  rewrite E0 in E. discriminate.
Qed.

Lemma recolorDraggable_idem scheme page d :
  recolorDraggable scheme (recolorPage scheme page)
    (recolorDraggable scheme page d)
  = recolorDraggable scheme page d.
Proof.
  unfold recolorDraggable at 1.
  rewrite recolorBackground_idem.
  unfold recolorDraggable.
  cbn [dataElementType svgNodes rectTop rectBottom].
  rewrite List.map_map. f_equal.
  apply List.map_ext. intros n. apply recolorSvg_idem.
Qed.

Lemma recolorPage_idem scheme page :
  recolorPage scheme (recolorPage scheme page) = recolorPage scheme page.
Proof.
  set (once := recolorPage scheme page).
  unfold recolorPage at 1.
  assert (Hd : List.map (recolorDraggable scheme once) (draggables once)
               = draggables once).
  { unfold once at 2 3. cbn [recolorPage draggables].
    rewrite List.map_map. apply List.map_ext. intros d.
    apply recolorDraggable_idem. }
  assert (Ht : List.map (recolorText scheme) (texts once) = texts once).
  { unfold once. cbn [recolorPage texts].
    rewrite List.map_map. apply List.map_ext. intros t. reflexivity. }
  assert (Hb : List.map (fun _ => accent scheme) (badges once)
               = badges once).
  { unfold once. cbn [recolorPage badges].
    rewrite List.map_map. reflexivity. }
  rewrite Hd, Ht, Hb. reflexivity.
Qed.

Lemma updateFirst_idem {A} (p : A -> bool) (f : A -> A) (l : list A) :
  (forall a, p (f a) = p a) -> (forall a, f (f a) = f a) ->
  updateFirst p f (updateFirst p f l) = updateFirst p f l.
Proof.
  intros Hp Hf. induction l as [|a l IH]; [reflexivity|].
  cbn. destruct (p a) eqn:E; cbn.
  - now rewrite Hp, E, Hf.
  - now rewrite E, IH.
Qed.

Lemma recolored_pages_idem scheme (cur : option string) (b : bool) ps :
  let go qs :=
    if b && Js.strTruthy cur then
      updateFirst (fun p => String.eqb (dataPageId p) (Js.strOr cur ""))
        (recolorPage scheme) qs
    else List.map (recolorPage scheme) qs in
  go (go ps) = go ps.
Proof.
  cbn zeta. destruct (b && Js.strTruthy cur).
  - apply updateFirst_idem; [reflexivity | apply recolorPage_idem].
  - rewrite List.map_map. apply List.map_ext. intros p.
    apply recolorPage_idem.
Qed.

(** X14.  Applying a scheme's colours is idempotent: a second
    [applyColorsToPages] with the same scheme and the same scope
    changes nothing.  In particular an element whose background was
    painted keeps the colour chosen from its position. *)
Theorem applyColorsToPages_twice scheme currentPageOnly (w : World) :
  applyColorsToPages scheme currentPageOnly
    (applyColorsToPages scheme currentPageOnly w)
  = applyColorsToPages scheme currentPageOnly w.
Proof.
  unfold applyColorsToPages at 1.
  cbn [applyColorsToPages setDom editor dom pages inputs colorSchemesGrid
       log].
  unfold applyColorsToPages, setDom. cbn [editor dom log pages inputs
    colorSchemesGrid].
  f_equal. f_equal.
  apply (recolored_pages_idem scheme (currentPage (editor w))
           currentPageOnly (pages (dom w))).
Qed.

(** ** One page only *)

Lemma updateFirst_find {A} (p : A -> bool) (P : A -> Prop)
    `{forall a, Decision (P a)} (f : A -> A) (l : list A) :
  (forall a, p a = true <-> P a) ->
  updateFirst p f l =
    match list_find P l with
    | Some (i, a) => <[i := f a]> l
    | None => l
    end.
Proof.
  intros Hp. induction l as [|a l IH]; [reflexivity|].
  cbn [updateFirst list_find].
  destruct (decide (P a)) as [Ha|Ha].
  - apply Hp in Ha. now rewrite Ha.
  - destruct (p a) eqn:E; [apply Hp in E; contradiction|].
    rewrite IH. destruct (list_find P l) as [[i x]|]; reflexivity.
Qed.

(** X15.  With [currentPageOnly] set and a page selected,
    [applyColorsToPages] recolours exactly one page, the first in
    document order whose [data-page-id] is the selected id, and leaves
    every other page as it is; when no page carries that id nothing is
    recoloured.  With no page selected the flag is ignored and all pages
    are recoloured.  In every case the editor state, the colour panel
    and the log are untouched. *)
Theorem applyColorsToPages_current_page_only scheme (w : World) :
  let w' := applyColorsToPages scheme true w in
  editor w' = editor w /\ log w' = log w /\
  inputs (dom w') = inputs (dom w) /\
  colorSchemesGrid (dom w') = colorSchemesGrid (dom w) /\
  (Js.strTruthy (currentPage (editor w)) = false ->
     w' = applyColorsToPages scheme false w) /\
  (forall pid, currentPage (editor w) = Some pid -> pid <> "" ->
     pages (dom w') =
       match list_find (fun p => dataPageId p = pid) (pages (dom w)) with
       | Some (i, p) => <[i := recolorPage scheme p]> (pages (dom w))
       | None => pages (dom w)
       end).
Proof.
  cbn zeta. repeat apply conj; try reflexivity.
  - intros Hcur. unfold applyColorsToPages. now rewrite Hcur.
  - intros pid Hcur Hpid. unfold applyColorsToPages. rewrite Hcur.
    cbn [Js.strTruthy Js.strOr setDom dom pages andb].
    destruct (String.eqb_spec pid ""); [contradiction|]. cbn [negb].
    apply updateFirst_find. intros a. apply String.eqb_eq.
Qed.

(** ** What recolouring keeps and what it paints *)

Lemma Forall2_map_self {A} (R : A -> A -> Prop) (f : A -> A) (l : list A) :
  (forall a, R a (f a)) -> Forall2 R l (List.map f l).
Proof. intros HR. induction l; cbn; constructor; auto. Qed.

Lemma Forall2_updateFirst {A} (R : A -> A -> Prop) (p : A -> bool)
    (f : A -> A) (l : list A) :
  (forall a, R a a) -> (forall a, R a (f a)) ->
  Forall2 R l (updateFirst p f l).
Proof.
  intros Hrefl HR. induction l as [|a l IH]; cbn; [constructor|].
  destruct (p a); constructor; auto.
  clear IH. induction l; constructor; auto.
Qed.

Lemma recolorShapeAttr_unpainted a c :
  unpainted a = true -> recolorShapeAttr a c = a.
Proof.
  destruct a as [v|]; [|reflexivity]. cbn. intros E. now rewrite E.
Qed.

Lemma recolorIconAttr_unpainted a c :
  unpainted a = true -> recolorIconAttr a c = a.
Proof.
  destruct a as [v|]; [|reflexivity]. cbn. intros E. now rewrite E.
Qed.

Lemma recolorSvg_keeps scheme ty n :
  keepsUnpainted n (recolorSvg scheme ty n).
Proof.
  unfold keepsUnpainted, recolorSvg.
  destruct (String.eqb ty "shape"); cbn.
  - split; apply recolorShapeAttr_unpainted.
  - destruct (String.eqb ty "icon"); cbn.
    + split; apply recolorIconAttr_unpainted.
    + split; reflexivity.
Qed.

Lemma recolorBackground_clear scheme page d :
  clearBackground (backgroundColor d) = true ->
  recolorBackground scheme page d = backgroundColor d.
Proof.
  unfold clearBackground, recolorBackground. intros E.
  destruct (String.eqb (backgroundColor d) "");
    [reflexivity|].
  destruct (String.eqb (backgroundColor d) "transparent");
    [reflexivity|].
  destruct (String.eqb (backgroundColor d) "rgba(0, 0, 0, 0)");
    [reflexivity | discriminate].
Qed.

Lemma recolorDraggable_same scheme page d :
  sameElement d (recolorDraggable scheme page d).
Proof.
  unfold sameElement, recolorDraggable.
  cbn [dataElementType rectTop rectBottom backgroundColor svgNodes].
  repeat apply conj; try reflexivity.
  - apply recolorBackground_clear.
  - intros Hs Hi. unfold recolorSvg.
    destruct (String.eqb_spec (dataElementType d) "shape");
      [contradiction|].
    destruct (String.eqb_spec (dataElementType d) "icon");
      [contradiction|].
    apply List.map_id.
  - apply Forall2_map_self. intros n. apply recolorSvg_keeps.
Qed.

Lemma sameElement_refl d : sameElement d d.
Proof.
  unfold sameElement. repeat apply conj; try reflexivity.
  induction (svgNodes d); constructor; auto.
  split; reflexivity.
Qed.

Lemma recolorPage_same scheme page : samePage page (recolorPage scheme page).
Proof.
  unfold samePage, recolorPage.
  cbn [dataPageId pageTop pageHeight offsetWidth offsetHeight draggables
       texts badges].
  repeat apply conj; try reflexivity.
  - apply Forall2_map_self. intros d. apply recolorDraggable_same.
  - apply Forall2_map_self. intros t. unfold sameText. cbn. tauto.
  - apply length_map.
Qed.

Lemma samePage_refl page : samePage page page.
Proof.
  unfold samePage. repeat apply conj; try reflexivity.
  - induction (draggables page); constructor; auto.
    apply sameElement_refl.
  - induction (texts page); constructor; auto.
    unfold sameText. tauto.
Qed.

(** X16.  Recolouring only recolours.  Whatever the scheme and the
    scope, [applyColorsToPages] keeps the pages, their ids and
    geometry, and on each page the elements with their type and box,
    the text nodes with their size, class and tag, and the number of
    badges.  It never paints what was left unpainted: an svg [fill] or
    [stroke] that is absent or none stays so, an element background that
    is empty or transparent stays so, and the svg of an element that is
    neither a shape nor an icon is not touched. *)
Theorem applyColorsToPages_only_recolours scheme currentPageOnly
    (w : World) :
  Forall2 samePage (pages (dom w))
    (pages (dom (applyColorsToPages scheme currentPageOnly w))).
Proof.
  unfold applyColorsToPages. cbn [setDom dom pages].
  destruct (currentPageOnly && Js.strTruthy (currentPage (editor w))).
  - apply Forall2_updateFirst;
      [apply samePage_refl | apply recolorPage_same].
  - apply Forall2_map_self. apply recolorPage_same.
Qed.

Lemma recolorShapeAttr_after a c : shapeAttrAfter c (recolorShapeAttr a c).
Proof.
  unfold shapeAttrAfter, recolorShapeAttr.
  destruct a as [v|]; [|tauto].
  destruct (String.eqb_spec v "none"); [subst; tauto|].
  destruct (String.eqb_spec v ""); cbn [negb andb]; [subst; tauto|].
  destruct (String.eqb_spec v "currentColor"); cbn [negb andb];
    [subst; tauto | tauto].
Qed.

Lemma recolorIconAttr_after a c : iconAttrAfter c (recolorIconAttr a c).
Proof.
  unfold iconAttrAfter, recolorIconAttr.
  destruct a as [v|]; [|tauto].
  destruct (String.eqb_spec v "none"); [subst; tauto | tauto].
Qed.

Lemma recolorDraggable_painted scheme page d :
  paintedElement scheme (recolorDraggable scheme page d).
Proof.
  unfold paintedElement, recolorDraggable.
  cbn [dataElementType backgroundColor svgNodes].
  repeat apply conj.
  - destruct (clearBackground (backgroundColor d)) eqn:E.
    + left. now rewrite recolorBackground_clear.
    + right. unfold recolorBackground. unfold clearBackground in E.
      apply orb_false_elim in E as [E E3].
      apply orb_false_elim in E as [E1 E2].
      rewrite E1, E2, E3. cbn [negb andb].
      destruct (_ || _); tauto.
  - intros Hty. rewrite Hty. apply List.Forall_map.
    apply List.Forall_forall. intros n _. unfold recolorSvg.
    cbn [String.eqb Ascii.eqb Bool.eqb fillAttr strokeAttr].
    split; apply recolorShapeAttr_after.
  - intros Hty. rewrite Hty. apply List.Forall_map.
    apply List.Forall_forall. intros n _. unfold recolorSvg.
    cbn [String.eqb Ascii.eqb Bool.eqb fillAttr strokeAttr].
    split; apply recolorIconAttr_after.
Qed.

Lemma recolorPage_painted scheme page :
  paintedPage scheme (recolorPage scheme page).
Proof.
  unfold paintedPage, recolorPage.
  cbn [pageBackground draggables texts badges].
  repeat apply conj; [reflexivity | | | ].
  - apply List.Forall_map, List.Forall_forall. intros d _.
    apply recolorDraggable_painted.
  - apply List.Forall_map, List.Forall_forall. intros t _.
    unfold recolorText. cbn [color]. destruct (_ || _); tauto.
  - apply List.Forall_map, List.Forall_forall. intros b _. reflexivity.
Qed.

Lemma saveToHistoryIfDefined_dom env actionName (w : World) :
  dom (saveToHistoryIfDefined env actionName w) = dom w.
Proof.
  unfold saveToHistoryIfDefined, saveToHistory.
  destruct (hasSaveToHistory env); [|reflexivity].
  destruct (isUndoRedo (editor w)); reflexivity.
Qed.

Lemma saveToHistoryIfDefined_document env actionName (w : World) :
  sameDocument (editor w) (editor (saveToHistoryIfDefined env actionName w)).
Proof.
  unfold saveToHistoryIfDefined, saveToHistory, sameDocument.
  destruct (hasSaveToHistory env); [|tauto].
  destruct (isUndoRedo (editor w)) eqn:E; [tauto|].
  cbn [emit setEditor editor].
  destruct (_ <? _)%Z; cbn; rewrite ?E; tauto.
Qed.

Lemma renderColorSchemesGrid_frame currentScheme (w : World) :
  let w' := renderColorSchemesGrid currentScheme w in
  pages (dom w') = pages (dom w) /\ inputs (dom w') = inputs (dom w) /\
  editor w' = editor w.
Proof.
  cbn zeta. unfold renderColorSchemesGrid.
  destruct (colorSchemesGrid (dom w)); cbn; tauto.
Qed.

Lemma toast_frame (b : bool) message type (w : World) :
  let w' := if b then globalShowToast message type w else w in
  dom w' = dom w /\ editor w' = editor w.
Proof. cbn zeta. destruct b; cbn; tauto. Qed.

Lemma applyColorScheme_pages env schemeId scheme currentPageOnly
    (w : World) currentScheme :
  COLOR_SCHEMES !! schemeId = Some scheme ->
  let r := applyColorScheme env schemeId currentPageOnly w currentScheme in
  pages (dom (fst r))
    = pages (dom (applyColorsToPages scheme currentPageOnly w)) /\
  snd r = Some schemeId /\
  isDirty (editor (fst r)) = true.
Proof.
  intros Hs. cbn zeta. unfold applyColorScheme. rewrite Hs.
  cbn [fst snd]. split; [|split; [reflexivity|]].
  - rewrite saveToHistoryIfDefined_dom. cbn [setEditor dom].
    rewrite (proj1 (toast_frame _ _ _ _)).
    rewrite (proj1 (renderColorSchemesGrid_frame _ _)).
    reflexivity.
  - match goal with
    | |- isDirty (editor (saveToHistoryIfDefined ?e ?n ?v)) = _ =>
        destruct (saveToHistoryIfDefined_document e n v)
          as (_ & _ & _ & Hd & _)
    end.
    rewrite Hd. reflexivity.
Qed.

(** X17.  After [applyColorScheme] with a known id and every page in
    scope, the whole brochure is in the scheme's palette: each page has
    the scheme's background, each badge its accent, each text node its
    primary or its text colour, each element background is either
    still clear or the primary or secondary, each shape attribute is the
    primary (fill) or secondary (stroke) unless it is one the pass
    skips, and each icon attribute is the accent unless it is absent or
    none.  The scheme becomes the current one and the document is marked
    dirty. *)
Theorem applyColorScheme_paints_the_brochure env schemeId scheme
    (w : World) currentScheme :
  COLOR_SCHEMES !! schemeId = Some scheme ->
  let r := applyColorScheme env schemeId false w currentScheme in
  Forall (paintedPage scheme) (pages (dom (fst r))) /\
  length (pages (dom (fst r))) = length (pages (dom w)) /\
  snd r = Some schemeId /\
  isDirty (editor (fst r)) = true.
Proof.
  intros Hs. cbn zeta.
  destruct (applyColorScheme_pages env schemeId scheme false w
              currentScheme Hs) as (Hp & Hc & Hd).
  rewrite Hp. unfold applyColorsToPages. cbn [andb setDom dom pages].
  repeat apply conj; [ | apply length_map | exact Hc | exact Hd].
  apply List.Forall_map, List.Forall_forall. intros p _.
  apply recolorPage_painted.
Qed.

Lemma applyColorScheme_paints_the_brochure_witness :
  COLOR_SCHEMES !! "blackGold"
    = Some (mkScheme "Black & Gold" "#1a1a1a" "#333333" "#d4af37"
              "#0d0d0d" "#ffffff") /\
  Forall (paintedPage (mkScheme "Black & Gold" "#1a1a1a" "#333333"
                         "#d4af37" "#0d0d0d" "#ffffff"))
    (pages (dom (fst (applyColorScheme ElementsLibrary.env0 "blackGold"
                        false studio None)))).
Proof.
  assert (Hs : COLOR_SCHEMES !! "blackGold"
               = Some (mkScheme "Black & Gold" "#1a1a1a" "#333333"
                         "#d4af37" "#0d0d0d" "#ffffff"))
    by (vm_compute; reflexivity).
  split; [exact Hs|].
  exact (proj1 (applyColorScheme_paints_the_brochure ElementsLibrary.env0
                  "blackGold" _ studio None Hs)).
Defined.

(** ** The colour panel *)

Lemma setInputPair_other v c h (m : gmap string string) k :
  k <> c -> k <> h -> setInputPair v c h m !! k = m !! k.
Proof.
  intros Hc Hh. unfold setInputPair.
  destruct (m !! c), (m !! h); try reflexivity.
  destruct (String.eqb v ""); [reflexivity|].
  rewrite !lookup_insert_ne by congruence. reflexivity.
Qed.

Lemma setInputPair_set v c h (m : gmap string string) :
  is_Some (m !! c) -> is_Some (m !! h) -> v <> "" ->
  setInputPair v c h m !! c = Some v /\ setInputPair v c h m !! h = Some v.
Proof.
  intros [x Hx] [y Hy] Hv. unfold setInputPair. rewrite Hx, Hy.
  destruct (String.eqb_spec v ""); [contradiction|].
  split.
  - destruct (decide (h = c)) as [->|Hne].
    + apply lookup_insert_eq.
    + rewrite lookup_insert_ne by exact Hne. apply lookup_insert_eq.
  - apply lookup_insert_eq.
Qed.

Lemma setInputPair_is_Some v c h (m : gmap string string) k :
  is_Some (m !! k) -> is_Some (setInputPair v c h m !! k).
Proof.
  intros Hk. unfold setInputPair.
  destruct (m !! c), (m !! h); try exact Hk.
  destruct (String.eqb v ""); [exact Hk|].
  rewrite !lookup_insert_is_Some'. tauto.
Qed.

Lemma isHexColour_nonempty c : isHexColour c = true -> c <> "".
Proof. now destruct c. Qed.

Lemma preset_colours schemeId scheme :
  COLOR_SCHEMES !! schemeId = Some scheme ->
  Forall (fun c => isHexColour c = true) (colours scheme).
Proof.
  intros Hs.
  assert (Hall : forallb (fun kv => forallb isHexColour (colours (snd kv)))
                   (map_to_list COLOR_SCHEMES) = true)
    by (vm_compute; reflexivity).
  rewrite forallb_forall in Hall.
  apply elem_of_map_to_list, list_elem_of_In in Hs.
  specialize (Hall _ Hs). cbn [snd] in Hall.
  rewrite forallb_forall in Hall.
  apply List.Forall_forall. exact Hall.
Qed.

Lemma updateCustomColorInputs_reads scheme (w : World) :
  Forall (fun i => is_Some (inputs (dom w) !! i)) colorInputIds ->
  Forall (fun c => c <> "") (colours scheme) ->
  let m := inputs (dom (updateCustomColorInputs scheme w)) in
  List.map (fun i => m !! i) colorInputIds =
    [Some (primary scheme); Some (primary scheme);
     Some (secondary scheme); Some (secondary scheme);
     Some (accent scheme); Some (accent scheme);
     Some (background scheme); Some (background scheme);
     Some (text scheme); Some (text scheme)].
Proof.
  intros Hin Hc. cbn zeta.
  unfold colorInputIds in Hin.
  repeat match goal with
         | H : Forall _ (_ :: _) |- _ =>
             apply Forall_cons in H as [? H]
         end.
  clear Hin.
  unfold colours in Hc.
  repeat match goal with
         | H : Forall _ (_ :: _) |- _ =>
             apply Forall_cons in H as [? H]
         end.
  clear Hc.
  unfold updateCustomColorInputs. cbn [setDom dom inputs].
  set (m0 := inputs (dom w)) in *.
  set (m1 := setInputPair (primary scheme) "schemePrimary"
               "schemePrimaryHex" m0).
  set (m2 := setInputPair (secondary scheme) "schemeSecondary"
               "schemeSecondaryHex" m1).
  set (m3 := setInputPair (accent scheme) "schemeAccent"
               "schemeAccentHex" m2).
  set (m4 := setInputPair (background scheme) "schemeBackground"
               "schemeBackgroundHex" m3).
  set (m5 := setInputPair (text scheme) "schemeText" "schemeTextHex" m4).
  assert (K1 : forall k, is_Some (m0 !! k) -> is_Some (m1 !! k))
    by (intros k; apply setInputPair_is_Some).
  assert (K2 : forall k, is_Some (m0 !! k) -> is_Some (m2 !! k))
    by (intros k Hk; apply setInputPair_is_Some; auto).
  assert (K3 : forall k, is_Some (m0 !! k) -> is_Some (m3 !! k))
    by (intros k Hk; apply setInputPair_is_Some; auto).
  assert (K4 : forall k, is_Some (m0 !! k) -> is_Some (m4 !! k))
    by (intros k Hk; apply setInputPair_is_Some; auto).
  destruct (setInputPair_set (primary scheme) "schemePrimary"
              "schemePrimaryHex" m0) as [P1 P2]; try assumption.
  destruct (setInputPair_set (secondary scheme) "schemeSecondary"
              "schemeSecondaryHex" m1) as [S1 S2]; auto.
  destruct (setInputPair_set (accent scheme) "schemeAccent"
              "schemeAccentHex" m2) as [A1 A2]; auto.
  destruct (setInputPair_set (background scheme) "schemeBackground"
              "schemeBackgroundHex" m3) as [B1 B2]; auto.
  destruct (setInputPair_set (text scheme) "schemeText"
              "schemeTextHex" m4) as [T1 T2]; auto.
  fold m1 in P1, P2. fold m2 in S1, S2. fold m3 in A1, A2.
  fold m4 in B1, B2. fold m5 in T1, T2.
  assert (Q1 : m5 !! "schemePrimary" = Some (primary scheme)).
  { unfold m5, m4, m3, m2.
    rewrite !setInputPair_other by discriminate. exact P1. }
  assert (Q2 : m5 !! "schemePrimaryHex" = Some (primary scheme)).
  { unfold m5, m4, m3, m2.
    rewrite !setInputPair_other by discriminate. exact P2. }
  assert (Q3 : m5 !! "schemeSecondary" = Some (secondary scheme)).
  { unfold m5, m4, m3.
    rewrite !setInputPair_other by discriminate. exact S1. }
  assert (Q4 : m5 !! "schemeSecondaryHex" = Some (secondary scheme)).
  { unfold m5, m4, m3.
    rewrite !setInputPair_other by discriminate. exact S2. }
  assert (Q5 : m5 !! "schemeAccent" = Some (accent scheme)).
  { unfold m5, m4.
    rewrite !setInputPair_other by discriminate. exact A1. }
  assert (Q6 : m5 !! "schemeAccentHex" = Some (accent scheme)).
  { unfold m5, m4.
    rewrite !setInputPair_other by discriminate. exact A2. }
  assert (Q7 : m5 !! "schemeBackground" = Some (background scheme)).
  { unfold m5. rewrite !setInputPair_other by discriminate. exact B1. }
  assert (Q8 : m5 !! "schemeBackgroundHex" = Some (background scheme)).
  { unfold m5. rewrite !setInputPair_other by discriminate. exact B2. }
  unfold colorInputIds. cbn [List.map].
  now rewrite Q1, Q2, Q3, Q4, Q5, Q6, Q7, Q8, T1, T2.
Qed.

Lemma recolorPage_colours s s' page :
  colours s = colours s' -> recolorPage s page = recolorPage s' page.
Proof.
  destruct s as [n a b c d e], s' as [n' a' b' c' d' e'].
  unfold colours. cbn. intros H. injection H as -> -> -> -> ->.
  reflexivity.
Qed.

Lemma applyColorScheme_frame env schemeId scheme currentPageOnly
    (w : World) currentScheme :
  COLOR_SCHEMES !! schemeId = Some scheme ->
  let r := applyColorScheme env schemeId currentPageOnly w currentScheme in
  inputs (dom (fst r)) = inputs (dom (updateCustomColorInputs scheme w)) /\
  currentPage (editor (fst r)) = currentPage (editor w).
Proof.
  intros Hs. cbn zeta. unfold applyColorScheme. rewrite Hs.
  cbn [fst snd]. split.
  - rewrite saveToHistoryIfDefined_dom. cbn [setEditor dom].
    rewrite (proj1 (toast_frame _ _ _ _)).
    rewrite (proj1 (proj2 (renderColorSchemesGrid_frame _ _))).
    reflexivity.
  - match goal with
    | |- currentPage (editor (saveToHistoryIfDefined ?e ?n ?v)) = _ =>
        destruct (saveToHistoryIfDefined_document e n v)
          as (_ & _ & Hc & _)
    end.
    rewrite Hc. cbn [setEditor editor setDirty currentPage].
    rewrite (proj2 (toast_frame _ _ _ _)).
    rewrite (proj2 (proj2 (renderColorSchemesGrid_frame _ _))).
    reflexivity.
Qed.

Lemma applyCustomColorScheme_pages env currentPageOnly (w : World)
    currentScheme :
  let r := applyCustomColorScheme env currentPageOnly w currentScheme in
  pages (dom (fst r))
    = pages (dom (applyColorsToPages (getCustomSchemeFromInputs (dom w))
                    currentPageOnly w)) /\
  snd r = None /\ isDirty (editor (fst r)) = true.
Proof.
  cbn zeta. unfold applyCustomColorScheme.
  cbn [fst snd]. split; [|split; [reflexivity|]].
  - rewrite saveToHistoryIfDefined_dom. cbn [setEditor dom].
    rewrite (proj1 (toast_frame _ _ _ _)).
    rewrite (proj1 (renderColorSchemesGrid_frame _ _)).
    reflexivity.
  - match goal with
    | |- isDirty (editor (saveToHistoryIfDefined ?e ?n ?v)) = _ =>
        destruct (saveToHistoryIfDefined_document e n v)
          as (_ & _ & _ & Hd & _)
    end.
    rewrite Hd. reflexivity.
Qed.

(** X18.  A preset survives the trip through the colour panel.  When
    the ten inputs of the panel exist, [applyColorScheme] with a known
    id leaves each colour input and its hex twin holding the preset's
    colour, so that [getCustomSchemeFromInputs] reads the preset's five
    colours back, under the name Custom; every preset colour is a
    # followed by six lower-case hexadecimal digits, the form a colour
    input stores as given.  [applyCustomColorScheme] called next with
    the same scope therefore changes no page, and clears the current
    scheme. *)
Theorem preset_survives_the_panel env schemeId scheme currentPageOnly
    (w : World) currentScheme :
  COLOR_SCHEMES !! schemeId = Some scheme ->
  Forall (fun i => is_Some (inputs (dom w) !! i)) colorInputIds ->
  let w' := fst (applyColorScheme env schemeId currentPageOnly w
                   currentScheme) in
  let again := applyCustomColorScheme env currentPageOnly w'
                 (Some schemeId) in
  Forall (fun c => isHexColour c = true) (colours scheme) /\
  List.map (fun i => inputs (dom w') !! i) colorInputIds =
    [Some (primary scheme); Some (primary scheme);
     Some (secondary scheme); Some (secondary scheme);
     Some (accent scheme); Some (accent scheme);
     Some (background scheme); Some (background scheme);
     Some (text scheme); Some (text scheme)] /\
  colours (getCustomSchemeFromInputs (dom w')) = colours scheme /\
  name (getCustomSchemeFromInputs (dom w')) = "Custom" /\
  pages (dom (fst again)) = pages (dom w') /\
  snd again = None.
Proof.
  intros Hs Hin. cbn zeta.
  pose proof (preset_colours schemeId scheme Hs) as Hhex.
  assert (Hne : Forall (fun c => c <> "") (colours scheme)).
  { eapply List.Forall_impl; [|exact Hhex].
    intros c. apply isHexColour_nonempty. }
  destruct (applyColorScheme_frame env schemeId scheme currentPageOnly w
              currentScheme Hs) as [Hi Hcur].
  destruct (applyColorScheme_pages env schemeId scheme currentPageOnly w
              currentScheme Hs) as (Hp & _ & _).
  pose proof (updateCustomColorInputs_reads scheme w Hin Hne) as Hr.
  cbn zeta in Hr. rewrite <- Hi in Hr.
  set (w' := fst (applyColorScheme env schemeId currentPageOnly w
                    currentScheme)) in *.
  clearbody w'.
  assert (Hc : colours (getCustomSchemeFromInputs (dom w'))
               = colours scheme).
  { unfold colorInputIds in Hr. cbn [List.map] in Hr.
    injection Hr as R1 _ R2 _ R3 _ R4 _ R5 _.
    unfold colours in Hne.
    apply Forall_cons in Hne as [N1 Hne].
    apply Forall_cons in Hne as [N2 Hne].
    apply Forall_cons in Hne as [N3 Hne].
    apply Forall_cons in Hne as [N4 Hne].
    apply Forall_cons in Hne as [N5 _].
    unfold getCustomSchemeFromInputs, colours.
    cbn [primary secondary accent background text].
    rewrite R1, R2, R3, R4, R5. cbn [Js.strOr].
    destruct (String.eqb_spec (primary scheme) ""); [contradiction|].
    destruct (String.eqb_spec (secondary scheme) ""); [contradiction|].
    destruct (String.eqb_spec (accent scheme) ""); [contradiction|].
    destruct (String.eqb_spec (background scheme) ""); [contradiction|].
    destruct (String.eqb_spec (text scheme) ""); [contradiction|].
    reflexivity. }
  split; [exact Hhex|]. split; [exact Hr|]. split; [exact Hc|].
  split; [reflexivity|].
  split; [|apply applyCustomColorScheme_pages].
  destruct (applyCustomColorScheme_pages env currentPageOnly w'
              (Some schemeId)) as (Hq & _ & _).
  rewrite Hq. unfold applyColorsToPages at 1.
  cbn [setDom dom pages]. rewrite Hcur, Hp.
  unfold applyColorsToPages. cbn [setDom dom pages].
  pose proof (recolored_pages_idem scheme (currentPage (editor w))
                currentPageOnly (pages (dom w))) as Hidem.
  cbn zeta in Hidem.
  destruct (currentPageOnly && Js.strTruthy (currentPage (editor w))).
  - rewrite <- Hidem at 2.
    set (qs := updateFirst _ (recolorPage scheme) (pages (dom w))).
    clearbody qs. clear -Hc.
    induction qs as [|a l IH]; [reflexivity|].
    cbn [updateFirst]. destruct (String.eqb _ _).
    + f_equal. now apply recolorPage_colours.
    + f_equal. exact IH.
  - rewrite <- Hidem at 2.
    apply List.map_ext. intros p. now apply recolorPage_colours.
Qed.

Lemma preset_survives_the_panel_witness :
  Forall (fun i => is_Some (inputs (dom studio) !! i)) colorInputIds /\
  colours (getCustomSchemeFromInputs
             (dom (fst (applyColorScheme ElementsLibrary.env0 "blackGold"
                          true studio None))))
  = ["#1a1a1a"; "#333333"; "#d4af37"; "#0d0d0d"; "#ffffff"].
Proof.
  assert (Hs : COLOR_SCHEMES !! "blackGold"
               = Some (mkScheme "Black & Gold" "#1a1a1a" "#333333"
                         "#d4af37" "#0d0d0d" "#ffffff"))
    by (vm_compute; reflexivity).
  assert (Hin : Forall (fun i => is_Some (inputs (dom studio) !! i))
                  colorInputIds)
    by (repeat constructor; eexists; vm_compute; reflexivity).
  split; [exact Hin|].
  destruct (preset_survives_the_panel ElementsLibrary.env0 "blackGold" _
              true studio None Hs Hin) as (_ & _ & Hc & _).
  exact Hc.
Defined.

(** ** The swatch grid *)

(** X19.  The grid offers every preset exactly once: the ids listed in
    the categories of [renderColorSchemesGrid] are pairwise distinct,
    each of them is a key of [COLOR_SCHEMES] (the guard that skips an
    unknown id never fires), and every key of [COLOR_SCHEMES] is
    listed. *)
Theorem grid_offers_every_preset_once :
  NoDup swatches /\
  flat_map snd categories = swatches /\
  (forall schemeId,
     schemeId ∈ swatches <-> is_Some (COLOR_SCHEMES !! schemeId)).
Proof.
  split; [|split].
  - apply (bool_decide_unpack (NoDup swatches)). vm_compute. exact I.
  - vm_compute. reflexivity.
  - intros schemeId.
    assert (Hlisted :
              forallb (fun k => bool_decide (k ∈ swatches))
                (List.map fst (map_to_list COLOR_SCHEMES)) = true)
      by (vm_compute; reflexivity).
    assert (Hknown :
              forallb (fun k => bool_decide
                                  (is_Some (COLOR_SCHEMES !! k)))
                swatches = true)
      by (vm_compute; reflexivity).
    rewrite forallb_forall in Hlisted, Hknown. split.
    + intros Hin. apply list_elem_of_In in Hin.
      apply Hknown in Hin. now apply bool_decide_eq_true_1 in Hin.
    + intros [scheme Hs].
      apply elem_of_map_to_list, list_elem_of_In in Hs.
      apply (in_map fst) in Hs. apply Hlisted in Hs.
      now apply bool_decide_eq_true_1 in Hs.
Qed.

End ColourFacts.

(* ===================================================================== *)
(** * Properties of the archive *)
(* ===================================================================== *)

Section ArchiveFacts.

Import MultiFormatExport ExportTools.
Local Open Scope Q_scope.

Lemma pageImages_images env total i page :
  Forall isImage (fst (pageImages env total i page)).
Proof.
  unfold pageImages.
  destruct (generatePageImage env page jpeg _);
    [destruct (generatePageImage env page png _)|]; cbn;
    repeat constructor.
Qed.

Lemma imagesLoop_images env ps :
  Forall isImage (concat (List.map fst (imagesLoop env ps))).
Proof.
  unfold imagesLoop.
  induction (seq 0 (Nat.min (length ps) 10)) as [|i l IH]; cbn;
    [constructor|].
  apply Forall_app. split; [|exact IH].
  destruct (ps !! i); [apply pageImages_images | constructor].
Qed.

Lemma exportMultipleFormats_loaded env :
  loadJSZip env = true ->
  let out := exportMultipleFormats env in
  let pdf := match snd (fst (exportPDFBlob env)) with
             | Some b => [PdfFile "brochure.pdf" b]
             | None => []
             end in
  let entries :=
    pdf ++ concat (List.map fst (imagesLoop env (pagesOf env)))
    ++ [PreviewFile "preview.html" (generateHTMLPreview (pagesOf env));
        ReadmeFile "README.txt"] in
  archive out = Some entries /\
  requests out = fst (fst (exportPDFBlob env)) /\
  exists before after,
    events out = before ++ [Download "brochure-multi-format.zip" entries]
                 ++ after /\
    Forall (fun e => ~ isDownload e) before /\
    after = (if showToastDefined env
             then [ToastLater 1000 "success" "Multi-format export complete!"]
             else []).
Proof.
  intros Hzip. cbn zeta. unfold exportMultipleFormats. rewrite Hzip.
  cbn [negb]. fold (pagesOf env).
  destruct (exportPDFBlob env) as [[reqs pdfBlob] pdfEvents] eqn:Hpdf.
  cbn [fst snd archive requests events].
  split; [reflexivity|]. split; [reflexivity|].
  exists ([Progress "Generating PDF..." 10] ++ pdfEvents
          ++ (match pdfBlob with
              | Some _ => [Progress "PDF generated successfully" 30]
              | None => []
              end)
          ++ [Progress "Generating page images..." 40]
          ++ concat (List.map snd (imagesLoop env (pagesOf env)))
          ++ [Progress "Creating HTML preview..." 85;
              Progress "Packaging files..." 90;
              Progress "Download ready!" 100]).
  eexists.
  split; [|split; [|reflexivity]].
  - repeat rewrite <- app_assoc. reflexivity.
  - rewrite !Forall_app. repeat apply conj.
    + repeat constructor. intros [].
    + unfold exportPDFBlob in Hpdf.
      destruct (brochureData env) as [d|];
        [destruct (pages d);
         [destruct (fetchBlob env _)|]|];
        injection Hpdf as _ _ <-; repeat constructor; intros [].
    + destruct pdfBlob; repeat constructor. intros [].
    + repeat constructor. intros [].
    + unfold imagesLoop.
      induction (seq 0 (Nat.min (length (pagesOf env)) 10)) as [|i l IH];
        cbn; [constructor|].
      apply Forall_app. split; [|exact IH].
      destruct (pagesOf env !! i) as [page|]; [|constructor].
      unfold pageImages.
      destruct (generatePageImage env page jpeg _);
        [destruct (generatePageImage env page png _)|]; cbn;
        repeat constructor; intros [].
    + repeat constructor; intros [].
Qed.

(** X20.  An export always delivers what it could produce.  When JSZip
    loads, [exportMultipleFormats] downloads exactly one archive, named
    brochure-multi-format.zip, whatever goes wrong with the PDF or the
    rasters: the archive ends with preview.html and README.txt, before
    them come only page images, and before those brochure.pdf exactly
    when the export endpoint answered the one request sent with a blob.
    The download is followed only by the scheduling of the success
    toast.  When JSZip cannot be loaded, nothing is requested and
    nothing is downloaded. *)
Theorem exportMultipleFormats_delivers_what_it_can env :
  let out := exportMultipleFormats env in
  (loadJSZip env = false ->
     archive out = None /\ requests out = [] /\
     Forall (fun e => ~ isDownload e) (events out)) /\
  (loadJSZip env = true ->
     exists pdf images,
       archive out =
         Some (pdf ++ images
               ++ [PreviewFile "preview.html"
                     (generateHTMLPreview (pagesOf env));
                   ReadmeFile "README.txt"]) /\
       Forall isImage images /\
       (pdf = [] \/ exists r b,
          pdf = [PdfFile "brochure.pdf" b] /\ requests out = [r] /\
          fetchBlob env r = Some b /\
          Some (body r) = brochureData env) /\
       (length (requests out) <= 1)%nat /\
       (pdf = [] -> Forall (fun r => fetchBlob env r = None)
                      (requests out)) /\
       exists before after,
         events out = before
           ++ [Download "brochure-multi-format.zip"
                 (pdf ++ images
                  ++ [PreviewFile "preview.html"
                        (generateHTMLPreview (pagesOf env));
                      ReadmeFile "README.txt"])] ++ after /\
         Forall (fun e => ~ isDownload e) before /\
         after = (if showToastDefined env
                  then [ToastLater 1000 "success"
                          "Multi-format export complete!"]
                  else [])).
Proof.
  cbn zeta. split.
  - intros Hzip. unfold exportMultipleFormats. rewrite Hzip.
    cbn [negb archive requests events].
    repeat apply conj; try reflexivity.
    destruct (showToastDefined env); repeat constructor; intros [].
  - intros Hzip.
    destruct (exportMultipleFormats_loaded env Hzip)
      as (Harch & Hreq & before & after & Hev & Hbefore & Hafter).
    eexists _, _. split; [exact Harch|].
    split; [apply imagesLoop_images|].
    rewrite Hreq. unfold exportPDFBlob in *.
    destruct (brochureData env) as [d|] eqn:Hd;
      [destruct (pages d) eqn:Hp;
       [destruct (fetchBlob env _) as [b|] eqn:Hf|]|];
      cbn [fst snd length] in *.
    + split; [right; eexists _, b; repeat apply conj;
              [reflexivity | reflexivity | exact Hf | reflexivity]|].
      split; [lia|]. split; [discriminate|].
      exists before, after. repeat apply conj; assumption.
    + split; [now left|]. split; [lia|].
      split; [intros _; repeat constructor; exact Hf|].
      exists before, after. repeat apply conj; assumption.
    + split; [now left|]. split; [lia|].
      split; [intros _; constructor|].
      exists before, after. repeat apply conj; assumption.
    + split; [now left|]. split; [lia|].
      split; [intros _; constructor|].
      exists before, after. repeat apply conj; assumption.
Qed.

(** X21.  Exporting with nothing to export still downloads an archive
    and reports success.  When JSZip loads and [window.brochureData] is
    missing or has no [pages], no request is sent, the archive holds
    exactly preview.html, built from no page so with every section
    empty, and README.txt, and the only trace of the problem is the
    console line of [exportPDFBlob]. *)
Theorem exportMultipleFormats_without_data env :
  loadJSZip env = true ->
  (brochureData env = None \/
   exists d, brochureData env = Some d /\ pages d = None) ->
  let out := exportMultipleFormats env in
  requests out = [] /\
  archive out =
    Some [PreviewFile "preview.html" {| previewSections := emptySections |};
          ReadmeFile "README.txt"] /\
  ConsoleError "PDF export error:" ∈ events out /\
  Forall (fun e => match e with Toast _ _ => False | _ => True end)
    (events out) /\
  (showToastDefined env = true ->
   ToastLater 1000 "success" "Multi-format export complete!"
     ∈ events out).
Proof.
  intros Hzip Hnone. cbn zeta.
  assert (Hpdf : exportPDFBlob env
                 = ([], None, [ConsoleError "PDF export error:"])).
  { unfold exportPDFBlob.
    destruct Hnone as [-> | (d & -> & ->)]; reflexivity. }
  assert (Hps : pagesOf env = []).
  { unfold pagesOf.
    destruct Hnone as [-> | (d & -> & ->)]; reflexivity. }
  unfold exportMultipleFormats. rewrite Hzip. cbn [negb].
  fold (pagesOf env). rewrite Hpdf, Hps.
  cbn [archive requests events imagesLoop length Nat.min seq List.map
       concat app fst snd].
  repeat apply conj; try reflexivity.
  - rewrite !elem_of_cons. tauto.
  - destruct (showToastDefined env); repeat constructor.
  - intros ->. rewrite !elem_of_cons. tauto.
Qed.

Lemma exportMultipleFormats_without_data_witness :
  loadJSZip emptyEnv = true /\ brochureData emptyEnv = None /\
  requests (exportMultipleFormats emptyEnv) = [] /\
  option_map (List.map entryPath) (archive (exportMultipleFormats emptyEnv))
    = Some ["preview.html"; "README.txt"].
Proof.
  split; [reflexivity|]. split; [reflexivity|].
  destruct (exportMultipleFormats_without_data emptyEnv eq_refl
              (or_introl eq_refl)) as (Hreq & Harch & _).
  split; [exact Hreq|]. rewrite Harch. reflexivity.
Defined.

End ArchiveFacts.
